(** * Derived activity feed and notification list of the lab lending dashboard

    A shallow embedding of [loadActivities] (components/ActivityFeed.tsx) and of
    [loadNotifications], [markAsRead] and [markAllAsRead]
    (components/NotificationCenter.tsx), followed by the properties of the
    derivation engine: synthesis rules, ordering, filtering, truncation and
    read-state handling.

    Values are modelled the way the TypeScript has them: identifiers, titles,
    messages and timestamps are strings; a JavaScript number that can be [NaN]
    is an [option Z]; React state is passed explicitly, so that a function
    calling [setNotifications] maps the previous list to the next one. *)

From Stdlib Require Import ZArith List String Ascii Bool Lia Permutation Sorted.
From Stdlib Require Import DecimalString.
Import ListNotations.

Local Open Scope string_scope.
Local Open Scope Z_scope.

(** ** The JavaScript operations the two components rely on *)

Module JS.

(** A number that is either an integer or [NaN] ([None]). *)
Definition number := option Z.

(** [a - b] on numbers: [NaN] as soon as one operand is. *)
Definition sub (a b : number) : number :=
  match a, b with
  | Some x, Some y => Some (x - y)
  | _, _ => None
  end.

(** [a < b]: false as soon as one operand is [NaN]. *)
Definition lt (a b : number) : bool :=
  match a, b with
  | Some x, Some y => x <? y
  | _, _ => false
  end.

(** [a > b]. *)
Definition gt (a b : number) : bool := lt b a.

(** [a >= b]: false as soon as one operand is [NaN]. *)
Definition ge (a b : number) : bool :=
  match a, b with
  | Some x, Some y => y <=? x
  | _, _ => false
  end.

(** [a <= b]. *)
Definition le (a b : number) : bool := ge b a.

(** [a === k] for an integer literal [k]. *)
Definition eqk (a : number) (k : Z) : bool :=
  match a with
  | Some x => x =? k
  | None => false
  end.

(** [Math.ceil(a / d)] for a positive integer literal [d]; the quotients met
    here are far below 2^53, where the double division rounds no quotient
    onto a whole number it does not equal. *)
Definition ceilDiv (a : number) (d : Z) : number :=
  match a with
  | Some x => Some (- ((- x) / d))
  | None => None
  end.

(** [Math.floor(a / d)] for a positive integer literal [d], exact on the same
    range as [ceilDiv]. *)
Definition floorDiv (a : number) (d : Z) : number :=
  match a with
  | Some x => Some (x / d)
  | None => None
  end.

(** Truthiness of an optional string: [undefined] and the empty string are
    falsy. *)
Definition truthy (o : option string) : bool :=
  match o with
  | Some s => negb (s =? "")%string
  | None => false
  end.

(** [o || d] on an optional string. *)
Definition orElse (o : option string) (d : string) : string :=
  match o with
  | Some s => if (s =? "")%string then d else s
  | None => d
  end.

(** The string read from an optional field once a guard has established that
    it is present ([request.approvedDate!]). *)
Definition assertString (o : option string) : string :=
  match o with
  | Some s => s
  | None => "undefined"
  end.

(** An integer spliced into a template literal. *)
Definition showZ (z : Z) : string := NilZero.string_of_int (Z.to_int z).

(** [arr.slice(0, n)] for an integer [n]: a negative end counts from the end
    of the array. *)
Definition slice0 {A : Type} (n : Z) (l : list A) : list A :=
  if n <? 0
  then firstn (Z.to_nat (Z.max (Z.of_nat (List.length l) + n) 0)) l
  else firstn (Z.to_nat n) l.

Section Sort.
Context {A : Type}.

(** The comparator handed to [sort] returns a number. *)
Variable comparefn : A -> A -> number.

(** SortCompare: a [NaN] returned by the comparator counts as [+0]. *)
Definition sortCompare (x y : A) : Z :=
  match comparefn x y with
  | Some v => v
  | None => 0
  end.

(** [x] is placed before the first element it does not have to follow. *)
Fixpoint insert (x : A) (l : list A) : list A :=
  match l with
  | [] => [x]
  | y :: l' => if 0 <? sortCompare x y then y :: insert x l' else x :: y :: l'
  end.

(** [arr.sort(comparefn)].  ECMAScript requires the sort to be stable, which
    fixes the result for every comparator that is consistent on the array;
    the stable insertion sort computes that result.  For a comparator that is
    not consistent on the array (one that returns [NaN] for some pairs and
    orders others) the standard leaves the order to the engine, and engines
    differ from one another and from this function.  The properties below
    therefore speak of the order of a sorted list only where the comparator
    is consistent on it; everywhere else they use no more than that the
    sorted list is a permutation of the array, which holds of every
    engine. *)
Definition sort (l : list A) : list A := fold_right insert [] l.
End Sort.

End JS.

(** ** The built-in [Date], as far as the components use it *)

Class DateApi := {
  (** [new Date(s).getTime()]: the time value in milliseconds, [NaN] for a
      string that is not a date. *)
  parseDate : string -> JS.number;
  (** [new Date(t).toISOString()] for a time value [t]. *)
  toISOString : Z -> string;
  (** [d.toLocaleDateString()], which depends on the locale of the browser. *)
  toLocaleDateString : JS.number -> string;
  (** [d.setDate(d.getDate() - 1); d.getTime()] for the date [d] of a time
      value: the same local clock time on the previous calendar day, in the
      time zone of the browser.  That is 24 hours earlier, and 23 or 25 hours
      across a clock change. *)
  oneDayEarlier : Z -> Z
}.

(** [new Date(x).getTime()] for an optional field: [new Date(undefined)] is an
    invalid date. *)
Definition dateOf `{DateApi} (o : option string) : JS.number :=
  match o with
  | Some s => parseDate s
  | None => None
  end.

(** Milliseconds in a day, [1000 * 3600 * 24]. *)
Definition msPerDay : Z := 1000 * 3600 * 24.

(** ** Data model *)

(** The statuses of a request, as the [status] prop of StatusBadge.tsx lists
    them. *)
Inductive Status := pending | approved | returned | rejected | overdue.

Definition Status_eqb (a b : Status) : bool :=
  match a, b with
  | pending, pending | approved, approved | returned, returned
  | rejected, rejected | overdue, overdue => true
  | _, _ => false
  end.

Inductive Priority := low | medium | high.

(** Modelled from the spec: the roles of a user; the component asks whether
    the role is ['admin'] and treats every other user as a student. *)
Inductive Role := admin | student.

Module BorrowRequest.
(** Modelled from the spec: the declaration of [BorrowRequest] (types.ts) is
    not among the sources; the fields are the ones the two components read, the
    optional ones as section 3 of the specification lists them. *)
Record t := mk {
  id : string;
  studentId : string;
  studentName : string;
  componentName : string;
  quantity : Z;
  status : Status;
  requestDate : string;
  approvedDate : option string;
  approvedBy : option string;
  returnedDate : option string;
  dueDate : option string;
  adminNotes : option string
}.
End BorrowRequest.

Module User.
(** Modelled from the spec: the user returned by [auth.getCurrentUser()]
    (utils/auth.ts is not among the sources): identity, role, display name. *)
Record t := mk {
  id : string;
  role : Role;
  displayName : string
}.
End User.

Module ActivityItem.
Inductive kind := request | approval | checkout | return_ | rejection.

Record t := mk {
  id : string;
  type : kind;
  title : string;
  description : string;
  timestamp : string;
  user : string;
  component : string;
  status : string;
  priority : Priority
}.
End ActivityItem.

Module Notification.
Inductive kind := checkout | return_ | approval | rejection | reminder.

Record t := mk {
  id : string;
  type : kind;
  title : string;
  message : string;
  timestamp : string;
  read : bool;
  requestId : option string;
  priority : Priority
}.
End Notification.

(** The filter state of the activity feed. *)
Module Filter.
Inductive t := all | requests | approvals | returns.
End Filter.

(** ** The icons of lucide-react that the components render *)

Module Lucide.
Inductive icon :=
| Activity | AlertCircle | Bell | Calendar | CheckCircle | Clock | Package
| X | XCircle.
End Lucide.

(** An icon element with its [className]. *)
Definition IconElement : Type := Lucide.icon * string.

(** ** StatusBadge.tsx *)

Module StatusBadge.

Record StatusConfig := mkStatusConfig {
  color : string;
  textColor : string;
  icon : Lucide.icon;
  label : string;
  borderColor : string;
  glowColor : string
}.

(** The [switch] on the status string, with its [default]. *)
Definition getStatusConfig (status : string) : StatusConfig :=
  if (status =? "pending")%string then
    {| color := "bg-gradient-to-r from-yellow-500 to-orange-500";
       textColor := "text-white";
       icon := Lucide.Clock;
       label := "Pending Review";
       borderColor := "border-yellow-500/30";
       glowColor := "shadow-yellow-500/20" |}
  else if (status =? "approved")%string then
    {| color := "bg-gradient-to-r from-green-500 to-emerald-500";
       textColor := "text-white";
       icon := Lucide.CheckCircle;
       label := "Approved";
       borderColor := "border-green-500/30";
       glowColor := "shadow-green-500/20" |}
  else if (status =? "returned")%string then
    {| color := "bg-gradient-to-r from-blue-500 to-cyan-500";
       textColor := "text-white";
       icon := Lucide.Package;
       label := "Returned";
       borderColor := "border-blue-500/30";
       glowColor := "shadow-blue-500/20" |}
  else if (status =? "rejected")%string then
    {| color := "bg-gradient-to-r from-red-500 to-pink-500";
       textColor := "text-white";
       icon := Lucide.XCircle;
       label := "Rejected";
       borderColor := "border-red-500/30";
       glowColor := "shadow-red-500/20" |}
  else if (status =? "overdue")%string then
    {| color := "bg-gradient-to-r from-red-600 to-red-700";
       textColor := "text-white";
       icon := Lucide.AlertCircle;
       label := "Overdue";
       borderColor := "border-red-600/30";
       glowColor := "shadow-red-600/20" |}
  else
    {| color := "bg-gradient-to-r from-gray-500 to-gray-600";
       textColor := "text-white";
       icon := Lucide.Calendar;
       label := "Unknown";
       borderColor := "border-gray-500/30";
       glowColor := "shadow-gray-500/20" |}.

(** [iconSize] is the field [icon] of the source, named apart from the icon of
    [StatusConfig]. *)
Record SizeClasses := mkSizeClasses {
  container : string;
  iconSize : string;
  spacing : string
}.

(** The [switch] on the size string; [md] is the [default]. *)
Definition getSizeClasses (size : string) : SizeClasses :=
  if (size =? "sm")%string then
    {| container := "px-2 py-1 text-xs";
       iconSize := "w-3 h-3";
       spacing := "space-x-1" |}
  else if (size =? "lg")%string then
    {| container := "px-4 py-2 text-base";
       iconSize := "w-5 h-5";
       spacing := "space-x-2" |}
  else
    {| container := "px-3 py-1.5 text-sm";
       iconSize := "w-4 h-4";
       spacing := "space-x-1.5" |}.

(** The string of a member of the [status] union. *)
Definition statusName (st : Status) : string :=
  match st with
  | pending => "pending"
  | approved => "approved"
  | returned => "returned"
  | rejected => "rejected"
  | overdue => "overdue"
  end.

End StatusBadge.

(** ** ActivityFeed.tsx *)

Module ActivityFeed.
Import ActivityItem.

Definition kind_eqb (a b : kind) : bool :=
  match a, b with
  | request, request | approval, approval | checkout, checkout
  | return_, return_ | rejection, rejection => true
  | _, _ => false
  end.

(** The state of the component that [loadActivities] writes. *)
Record State := mkState {
  activities : list ActivityItem.t;
  loading : bool
}.

(** [useState([])] and [useState(true)]. *)
Definition initialState : State := {| activities := []; loading := true |}.

(** The default of the [maxItems] prop. *)
Definition defaultMaxItems : Z := 10.

(** A number spliced into a template literal. *)
Definition showNumber (n : JS.number) : string :=
  match n with
  | Some z => JS.showZ z
  | None => "NaN"
  end.

(** [getActivityIcon]: the [switch] on the type string, with its [default]. *)
Definition getActivityIcon (type : string) : IconElement :=
  if (type =? "request")%string then (Lucide.Clock, "w-5 h-5 text-yellow-400")
  else if (type =? "approval")%string
  then (Lucide.CheckCircle, "w-5 h-5 text-green-400")
  else if (type =? "checkout")%string
  then (Lucide.Package, "w-5 h-5 text-blue-400")
  else if (type =? "return")%string
  then (Lucide.CheckCircle, "w-5 h-5 text-teal-400")
  else if (type =? "rejection")%string then (Lucide.Clock, "w-5 h-5 text-red-400")
  else (Lucide.Activity, "w-5 h-5 text-gray-400").

(** The string of a member of the [type] union. *)
Definition kindName (k : ActivityItem.kind) : string :=
  match k with
  | ActivityItem.request => "request"
  | approval => "approval"
  | checkout => "checkout"
  | return_ => "return"
  | rejection => "rejection"
  end.

Section Derivation.
Context `{DateApi}.

(** The body of [requests.forEach]: the items one request pushes, in the order
    of the pushes. *)
Definition itemsOf (request : BorrowRequest.t) : list ActivityItem.t :=
  [ {| id := "request_" ++ request.(BorrowRequest.id);
       type := ActivityItem.request;
       title := "Component Request Submitted";
       description := request.(BorrowRequest.studentName) ++ " requested "
                      ++ request.(BorrowRequest.componentName) ++ " ("
                      ++ JS.showZ request.(BorrowRequest.quantity) ++ " units)";
       timestamp := request.(BorrowRequest.requestDate);
       user := request.(BorrowRequest.studentName);
       component := request.(BorrowRequest.componentName);
       status := "pending";
       priority := medium |} ]
  ++ (if Status_eqb request.(BorrowRequest.status) approved
         && JS.truthy request.(BorrowRequest.approvedDate)
      then [ {| id := "approval_" ++ request.(BorrowRequest.id);
                type := approval;
                title := "Request Approved";
                description := request.(BorrowRequest.componentName)
                               ++ " request approved for "
                               ++ request.(BorrowRequest.studentName);
                timestamp := JS.assertString request.(BorrowRequest.approvedDate);
                user := JS.orElse request.(BorrowRequest.approvedBy) "Admin";
                component := request.(BorrowRequest.componentName);
                status := "approved";
                priority := high |};
             {| id := "checkout_" ++ request.(BorrowRequest.id);
                type := checkout;
                title := "Component Checked Out";
                description := request.(BorrowRequest.studentName) ++ " checked out "
                               ++ request.(BorrowRequest.componentName) ++ " ("
                               ++ JS.showZ request.(BorrowRequest.quantity) ++ " units)";
                timestamp := JS.assertString request.(BorrowRequest.approvedDate);
                user := request.(BorrowRequest.studentName);
                component := request.(BorrowRequest.componentName);
                status := "approved";
                priority := medium |} ]
      else [])
  ++ (if Status_eqb request.(BorrowRequest.status) returned
         && JS.truthy request.(BorrowRequest.returnedDate)
      then [ {| id := "return_" ++ request.(BorrowRequest.id);
                type := return_;
                title := "Component Returned";
                description := request.(BorrowRequest.studentName) ++ " returned "
                               ++ request.(BorrowRequest.componentName) ++ " ("
                               ++ JS.showZ request.(BorrowRequest.quantity) ++ " units)";
                timestamp := JS.assertString request.(BorrowRequest.returnedDate);
                user := request.(BorrowRequest.studentName);
                component := request.(BorrowRequest.componentName);
                status := "returned";
                priority := medium |} ]
      else [])
  ++ (if Status_eqb request.(BorrowRequest.status) rejected
      then [ {| id := "rejection_" ++ request.(BorrowRequest.id);
                type := rejection;
                title := "Request Rejected";
                description := request.(BorrowRequest.componentName)
                               ++ " request rejected for "
                               ++ request.(BorrowRequest.studentName);
                timestamp := request.(BorrowRequest.requestDate);
                user := "Admin";
                component := request.(BorrowRequest.componentName);
                status := "rejected";
                priority := low |} ]
      else []).

(** [activityItems] once the [forEach] over the requests has run. *)
Definition activityItems (requests : list BorrowRequest.t) : list ActivityItem.t :=
  flat_map itemsOf requests.

(** The comparator of the sort, newest first:
    [new Date(b.timestamp).getTime() - new Date(a.timestamp).getTime()]. *)
Definition compareActivities (a b : ActivityItem.t) : JS.number :=
  JS.sub (parseDate b.(timestamp)) (parseDate a.(timestamp)).

(** [activityItems] after [activityItems.sort(...)]. *)
Definition sortedActivities (requests : list BorrowRequest.t) : list ActivityItem.t :=
  JS.sort compareActivities (activityItems requests).

(** The [switch] on the filter inside the callback of [filter]. *)
Definition matchesFilter (filter : Filter.t) (activity : ActivityItem.t) : bool :=
  match filter with
  | Filter.requests => kind_eqb activity.(type) ActivityItem.request
  | Filter.approvals =>
      kind_eqb activity.(type) approval || kind_eqb activity.(type) checkout
  | Filter.returns => kind_eqb activity.(type) return_
  | Filter.all => true
  end.

(** [filteredActivities]: the sorted items, filtered unless the filter is
    [all]. *)
Definition filteredActivities (filter : Filter.t)
    (requests : list BorrowRequest.t) : list ActivityItem.t :=
  match filter with
  | Filter.all => sortedActivities requests
  | _ => List.filter (matchesFilter filter) (sortedActivities requests)
  end.

(** The argument of [setActivities]: the list [loadActivities] derives from the
    requests read from storage, for the filter and the [maxItems] in scope. *)
Definition deriveActivities (filter : Filter.t) (maxItems : Z)
    (requests : list BorrowRequest.t) : list ActivityItem.t :=
  JS.slice0 maxItems (filteredActivities filter requests).

(** [loadActivities] as a transition of the component state; [requests] is
    what [storage.getRequests()] returns. *)
Definition loadActivities (filter : Filter.t) (maxItems : Z)
    (requests : list BorrowRequest.t) (st : State) : State :=
  {| activities := deriveActivities filter maxItems requests;
     loading := false |}.

(** [formatTimestamp] of the feed; [now] is the time value of [new Date()]. *)
Definition formatTimestamp (now : Z) (timestamp : string) : string :=
  let diffMs := JS.sub (Some now) (parseDate timestamp) in
  let diffHours := JS.floorDiv diffMs (1000 * 60 * 60) in
  let diffDays := JS.floorDiv diffMs (1000 * 60 * 60 * 24) in
  if JS.lt diffHours (Some 1) then "Just now"
  else if JS.lt diffHours (Some 24) then showNumber diffHours ++ "h ago"
  else if JS.lt diffDays (Some 7) then showNumber diffDays ++ "d ago"
  else toLocaleDateString (parseDate timestamp).

(** The badge a row of the feed renders:
    [<StatusBadge status={activity.status as any} size="sm" />]. *)
Definition rowBadge (activity : ActivityItem.t) : StatusBadge.StatusConfig :=
  StatusBadge.getStatusConfig activity.(ActivityItem.status).

(** [activity.priority === 'high']: the row carries the "Priority" tag. *)
Definition hasPriorityTag (activity : ActivityItem.t) : bool :=
  match activity.(priority) with
  | high => true
  | _ => false
  end.

End Derivation.
End ActivityFeed.

(** ** NotificationCenter.tsx *)

Module NotificationCenter.
Import Notification.

Definition kind_eqb (a b : kind) : bool :=
  match a, b with
  | checkout, checkout | return_, return_ | approval, approval
  | rejection, rejection | reminder, reminder => true
  | _, _ => false
  end.

(** [{ ...n, read: true }]. *)
Definition setRead (n : Notification.t) : Notification.t :=
  {| id := n.(id); type := n.(type); title := n.(title);
     message := n.(message); timestamp := n.(timestamp); read := true;
     requestId := n.(requestId); priority := n.(priority) |}.

(** [const priorityOrder = { high: 3, medium: 2, low: 1 }]. *)
Definition priorityOrder (p : Priority) : Z :=
  match p with
  | high => 3
  | medium => 2
  | low => 1
  end.

(** [useState<Notification[]>([])]. *)
Definition initialNotifications : list Notification.t := [].

(** [notifications.filter(n => !n.read).length], the unread count handed to
    [onNotificationUpdate]. *)
Definition unreadCount (notifications : list Notification.t) : nat :=
  List.length (List.filter (fun n => negb n.(read)) notifications).

Section Derivation.
Context `{DateApi}.

(** *** Admin notifications

    [now] is the time value of [new Date()].  The source reads the clock anew
    for every request it looks at; one run of [loadNotifications] is
    synchronous, and the derivation is taken at the single instant [now]. *)

Definition isPending (r : BorrowRequest.t) : bool :=
  Status_eqb r.(BorrowRequest.status) pending.

(** The callback of [overdueRequests]: [dueDate < today] compares the two time
    values. *)
Definition isOverdue (now : Z) (r : BorrowRequest.t) : bool :=
  if negb (Status_eqb r.(BorrowRequest.status) approved) then false
  else JS.lt (dateOf r.(BorrowRequest.dueDate)) (Some now).

(** [const yesterday = new Date(); yesterday.setDate(yesterday.getDate() - 1)]:
    the same local clock time one calendar day before [now], which is not
    always 24 hours before it. *)
Definition yesterday (now : Z) : Z := oneDayEarlier now.

Definition isRecentCheckout (now : Z) (r : BorrowRequest.t) : bool :=
  if negb (Status_eqb r.(BorrowRequest.status) approved)
     || negb (JS.truthy r.(BorrowRequest.approvedDate)) then false
  else JS.gt (dateOf r.(BorrowRequest.approvedDate)) (Some (yesterday now)).

Definition isRecentReturn (now : Z) (r : BorrowRequest.t) : bool :=
  if negb (Status_eqb r.(BorrowRequest.status) returned)
     || negb (JS.truthy r.(BorrowRequest.returnedDate)) then false
  else JS.gt (dateOf r.(BorrowRequest.returnedDate)) (Some (yesterday now)).

Definition pendingNotification (request : BorrowRequest.t) : Notification.t :=
  {| id := "pending_" ++ request.(BorrowRequest.id);
     type := approval;
     title := "New Component Request";
     message := request.(BorrowRequest.studentName) ++ " requested "
                ++ request.(BorrowRequest.componentName) ++ " ("
                ++ JS.showZ request.(BorrowRequest.quantity) ++ " units)";
     timestamp := request.(BorrowRequest.requestDate);
     read := false;
     requestId := Some request.(BorrowRequest.id);
     priority := high |}.

(** The due date of an overdue request is present: the filter has compared its
    time value with [today]. *)
Definition overdueNotification (request : BorrowRequest.t) : Notification.t :=
  {| id := "overdue_" ++ request.(BorrowRequest.id);
     type := reminder;
     title := "Overdue Component";
     message := request.(BorrowRequest.studentName) ++ " has overdue "
                ++ request.(BorrowRequest.componentName) ++ " (Due: "
                ++ toLocaleDateString (dateOf request.(BorrowRequest.dueDate))
                ++ ")";
     timestamp := JS.assertString request.(BorrowRequest.dueDate);
     read := false;
     requestId := Some request.(BorrowRequest.id);
     priority := high |}.

Definition checkoutNotification (request : BorrowRequest.t) : Notification.t :=
  {| id := "checkout_" ++ request.(BorrowRequest.id);
     type := checkout;
     title := "Component Checked Out";
     message := request.(BorrowRequest.studentName) ++ " checked out "
                ++ request.(BorrowRequest.componentName) ++ " ("
                ++ JS.showZ request.(BorrowRequest.quantity) ++ " units)";
     timestamp := JS.assertString request.(BorrowRequest.approvedDate);
     read := false;
     requestId := Some request.(BorrowRequest.id);
     priority := medium |}.

Definition returnNotification (request : BorrowRequest.t) : Notification.t :=
  {| id := "return_" ++ request.(BorrowRequest.id);
     type := return_;
     title := "Component Returned";
     message := request.(BorrowRequest.studentName) ++ " returned "
                ++ request.(BorrowRequest.componentName) ++ " ("
                ++ JS.showZ request.(BorrowRequest.quantity) ++ " units)";
     timestamp := JS.assertString request.(BorrowRequest.returnedDate);
     read := false;
     requestId := Some request.(BorrowRequest.id);
     priority := medium |}.

(** [userNotifications] at the end of the admin branch: four filters over the
    requests, each followed by a [forEach] that pushes one notification per
    request kept. *)
Definition adminNotifications (now : Z) (requests : list BorrowRequest.t)
    : list Notification.t :=
  map pendingNotification (List.filter isPending requests)
  ++ map overdueNotification (List.filter (isOverdue now) requests)
  ++ map checkoutNotification (List.filter (isRecentCheckout now) requests)
  ++ map returnNotification (List.filter (isRecentReturn now) requests).

(** *** Student notifications *)

(** [Math.ceil((dueDate.getTime() - today.getTime()) / (1000 * 3600 * 24))]. *)
Definition daysDiff (now : Z) (due : option string) : JS.number :=
  JS.ceilDiv (JS.sub (dateOf due) (Some now)) msPerDay.

Definition showNumber (n : JS.number) : string :=
  match n with
  | Some z => JS.showZ z
  | None => "NaN"
  end.

Definition approvedNotification (request : BorrowRequest.t) : Notification.t :=
  {| id := "approved_" ++ request.(BorrowRequest.id);
     type := approval;
     title := "Request Approved!";
     message := "Your request for " ++ request.(BorrowRequest.componentName)
                ++ " has been approved. "
                ++ JS.orElse request.(BorrowRequest.adminNotes)
                     "Please collect from the lab.";
     timestamp := JS.assertString request.(BorrowRequest.approvedDate);
     read := false;
     requestId := Some request.(BorrowRequest.id);
     priority := high |}.

Definition rejectedNotification (request : BorrowRequest.t) : Notification.t :=
  {| id := "rejected_" ++ request.(BorrowRequest.id);
     type := rejection;
     title := "Request Rejected";
     message := "Your request for " ++ request.(BorrowRequest.componentName)
                ++ " was rejected. "
                ++ JS.orElse request.(BorrowRequest.adminNotes)
                     "Please contact admin for details.";
     timestamp := request.(BorrowRequest.requestDate);
     read := false;
     requestId := Some request.(BorrowRequest.id);
     priority := medium |}.

Definition reminderNotification (now : Z) (request : BorrowRequest.t)
    : Notification.t :=
  let d := daysDiff now request.(BorrowRequest.dueDate) in
  {| id := "reminder_" ++ request.(BorrowRequest.id);
     type := reminder;
     title := "Return Reminder";
     message := request.(BorrowRequest.componentName) ++ " is due "
                ++ (if JS.eqk d 0 then "today"
                    else "in " ++ showNumber d ++ " day"
                         ++ (if JS.gt d (Some 1) then "s" else ""));
     timestamp := toISOString now;
     read := false;
     requestId := Some request.(BorrowRequest.id);
     priority := if JS.eqk d 0 then high else medium |}.

(** The body of [userRequests.forEach]: the notifications one request of the
    student pushes, in the order of the pushes. *)
Definition studentNotificationsOf (now : Z) (request : BorrowRequest.t)
    : list Notification.t :=
  (if Status_eqb request.(BorrowRequest.status) approved
      && JS.truthy request.(BorrowRequest.approvedDate)
   then [approvedNotification request] else [])
  ++ (if Status_eqb request.(BorrowRequest.status) rejected
      then [rejectedNotification request] else [])
  ++ (if Status_eqb request.(BorrowRequest.status) approved
      then let d := daysDiff now request.(BorrowRequest.dueDate) in
           if JS.le d (Some 2) && JS.ge d (Some 0)
           then [reminderNotification now request] else []
      else []).

Definition studentNotifications (currentUser : User.t) (now : Z)
    (requests : list BorrowRequest.t) : list Notification.t :=
  flat_map (studentNotificationsOf now)
    (List.filter
       (fun r => (r.(BorrowRequest.studentId) =? currentUser.(User.id))%string)
       requests).

(** *** Ordering, truncation, and the state transitions *)

(** [userNotifications] before the sort: the branch on the role. *)
Definition userNotifications (currentUser : User.t) (now : Z)
    (requests : list BorrowRequest.t) : list Notification.t :=
  match currentUser.(User.role) with
  | admin => adminNotifications now requests
  | student => studentNotifications currentUser now requests
  end.

(** The comparator of the sort: the priority ranks when they differ, else the
    time values, newest first. *)
Definition compareNotifications (a b : Notification.t) : JS.number :=
  if negb (priorityOrder a.(priority) =? priorityOrder b.(priority))
  then Some (priorityOrder b.(priority) - priorityOrder a.(priority))
  else JS.sub (parseDate b.(timestamp)) (parseDate a.(timestamp)).

(** The argument of [setNotifications] when there is a current user: the
    sorted synthesis, cut to 20. *)
Definition deriveNotifications (currentUser : User.t) (now : Z)
    (requests : list BorrowRequest.t) : list Notification.t :=
  JS.slice0 20 (JS.sort compareNotifications
                  (userNotifications currentUser now requests)).

(** [loadNotifications] as a transition of the [notifications] state: without
    a current user it returns before it sets anything. *)
Definition loadNotifications (currentUser : option User.t) (now : Z)
    (requests : list BorrowRequest.t) (prev : list Notification.t)
    : list Notification.t :=
  match currentUser with
  | None => prev
  | Some u => deriveNotifications u now requests
  end.

(** [formatTimestamp] of the panel; [now] is the time value of [new Date()]. *)
Definition formatTimestamp (now : Z) (timestamp : string) : string :=
  let diffMs := JS.sub (Some now) (parseDate timestamp) in
  let diffMins := JS.floorDiv diffMs (1000 * 60) in
  let diffHours := JS.floorDiv diffMs (1000 * 60 * 60) in
  let diffDays := JS.floorDiv diffMs (1000 * 60 * 60 * 24) in
  if JS.lt diffMins (Some 1) then "Just now"
  else if JS.lt diffMins (Some 60) then showNumber diffMins ++ "m ago"
  else if JS.lt diffHours (Some 24) then showNumber diffHours ++ "h ago"
  else if JS.lt diffDays (Some 7) then showNumber diffDays ++ "d ago"
  else toLocaleDateString (parseDate timestamp).

End Derivation.

(** [markAsRead]: the updater handed to [setNotifications]. *)
Definition markAsRead (notificationId : string) (prev : list Notification.t)
    : list Notification.t :=
  map (fun n => if (n.(id) =? notificationId)%string then setRead n else n) prev.

(** [markAllAsRead]. *)
Definition markAllAsRead (prev : list Notification.t) : list Notification.t :=
  map setRead prev.

(** [getNotificationIcon]: the [switch] on the type string, with its
    [default]. *)
Definition getNotificationIcon (type : string) : IconElement :=
  if (type =? "checkout")%string then (Lucide.Package, "w-5 h-5 text-blue-400")
  else if (type =? "return")%string
  then (Lucide.CheckCircle, "w-5 h-5 text-green-400")
  else if (type =? "approval")%string
  then (Lucide.CheckCircle, "w-5 h-5 text-green-400")
  else if (type =? "rejection")%string then (Lucide.X, "w-5 h-5 text-red-400")
  else if (type =? "reminder")%string
  then (Lucide.Clock, "w-5 h-5 text-yellow-400")
  else (Lucide.Bell, "w-5 h-5 text-gray-400").

(** [getPriorityColor]: the [switch] on the priority string, with its
    [default]. *)
Definition getPriorityColor (priority : string) : string :=
  if (priority =? "high")%string then "border-l-red-500 bg-red-900/20"
  else if (priority =? "medium")%string
  then "border-l-yellow-500 bg-yellow-900/20"
  else if (priority =? "low")%string then "border-l-blue-500 bg-blue-900/20"
  else "border-l-gray-500 bg-gray-900/20".

(** The strings of the members of the [type] and [priority] unions. *)
Definition kindName (k : Notification.kind) : string :=
  match k with
  | checkout => "checkout"
  | return_ => "return"
  | approval => "approval"
  | rejection => "rejection"
  | reminder => "reminder"
  end.

Definition priorityName (p : Priority) : string :=
  match p with
  | low => "low"
  | medium => "medium"
  | high => "high"
  end.

(** The badge on the bell: nothing when no notification is unread, else the
    count, ["99+"] above 99. *)
Definition bellBadge (unread : nat) : option string :=
  if (0 <? Z.of_nat unread) then
    Some (if (99 <? Z.of_nat unread) then "99+" else JS.showZ (Z.of_nat unread))
  else None.

(** The line under the title of the panel. *)
Definition panelSubtitle (unread : nat) : string :=
  if (0 <? Z.of_nat unread) then JS.showZ (Z.of_nat unread) ++ " unread"
  else "All caught up!".

(** [unreadCount > 0]: the panel offers "Mark all read". *)
Definition offersMarkAllRead (unread : nat) : bool := 0 <? Z.of_nat unread.

(** [notification.priority === 'high']: the row carries the "Urgent" tag. *)
Definition hasUrgentTag (n : Notification.t) : bool :=
  match n.(priority) with
  | high => true
  | _ => false
  end.

(** What can happen to the [notifications] state of a mounted component: a
    tick of the timer (with the requests in storage and the clock at that
    moment), a click on a notification, a click on "Mark all read". *)
Inductive Event :=
| Tick (now : Z) (requests : list BorrowRequest.t)
| MarkRead (notificationId : string)
| MarkAllRead.

Definition step `{DateApi} (currentUser : option User.t)
    (st : list Notification.t) (e : Event) : list Notification.t :=
  match e with
  | Tick now requests => loadNotifications currentUser now requests st
  | MarkRead i => markAsRead i st
  | MarkAllRead => markAllAsRead st
  end.

(** The state after a sequence of events, from the initial state. *)
Definition run `{DateApi} (currentUser : option User.t) (es : list Event)
    : list Notification.t :=
  fold_left (step currentUser) es initialNotifications.

End NotificationCenter.

(** ** An instance of [Date]: ISO 8601 in UTC

    The date-time strings the application stores are the ones [toISOString]
    prints.  This instance reads [YYYY-MM-DD], [YYYY-MM-DDTHH:mm:ssZ] and
    [YYYY-MM-DDTHH:mm:ss.sssZ], which ECMAScript reads as UTC, and rejects
    every other string; it serves to run the derivations on concrete
    requests. *)

Module IsoDate.

(** Days from 1970-01-01 to the civil date [y]-[m]-[d] (proleptic Gregorian). *)
Definition daysFromCivil (y m d : Z) : Z :=
  let y' := if m <=? 2 then y - 1 else y in
  let era := y' / 400 in
  let yoe := y' - era * 400 in
  let mp := (m + 9) mod 12 in
  let doy := (153 * mp + 2) / 5 + d - 1 in
  let doe := yoe * 365 + yoe / 4 - yoe / 100 + doy in
  era * 146097 + doe - 719468.

(** The civil date ([y], [m], [d]) of a day number. *)
Definition civilFromDays (z : Z) : Z * Z * Z :=
  let z' := z + 719468 in
  let era := z' / 146097 in
  let doe := z' - era * 146097 in
  let yoe := (doe - doe / 1460 + doe / 36524 - doe / 146096) / 365 in
  let doy := doe - (365 * yoe + yoe / 4 - yoe / 100) in
  let mp := (5 * doy + 2) / 153 in
  let d := doy - (153 * mp + 2) / 5 + 1 in
  let m := if mp <? 10 then mp + 3 else mp - 9 in
  (if m <=? 2 then yoe + era * 400 + 1 else yoe + era * 400, m, d).

Definition isLeap (y : Z) : bool :=
  ((y mod 4 =? 0) && negb (y mod 100 =? 0)) || (y mod 400 =? 0).

Definition daysInMonth (y m : Z) : Z :=
  if m =? 2 then (if isLeap y then 29 else 28)
  else if (m =? 4) || (m =? 6) || (m =? 9) || (m =? 11) then 30
  else 31.

Definition digitVal (c : ascii) : option Z :=
  let n := Z.of_nat (nat_of_ascii c) in
  if (48 <=? n) && (n <=? 57) then Some (n - 48) else None.

(** Reads exactly [n] decimal digits. *)
Fixpoint readDigits (n : nat) (acc : Z) (l : list ascii)
    : option (Z * list ascii) :=
  match n with
  | O => Some (acc, l)
  | S n' =>
      match l with
      | c :: l' =>
          match digitVal c with
          | Some v => readDigits n' (10 * acc + v) l'
          | None => None
          end
      | [] => None
      end
  end.

Definition expect (c : ascii) (l : list ascii) : option (list ascii) :=
  match l with
  | c' :: l' => if Ascii.eqb c c' then Some l' else None
  | [] => None
  end.

Definition bind {A B : Type} (o : option A) (f : A -> option B) : option B :=
  match o with
  | Some a => f a
  | None => None
  end.

Local Notation "' p <- o ;; k" := (bind o (fun p => k))
  (at level 61, p pattern, o at next level, right associativity).
Local Notation "x <- o ;; k" := (bind o (fun x => k))
  (at level 61, o at next level, right associativity).

(** [HH:mm:ss], then [Z] or [.sssZ], to milliseconds within the day. *)
Definition readTime (l : list ascii) : option Z :=
  '(hh, l) <- readDigits 2 0 l ;;
  l <- expect ":" l ;;
  '(mi, l) <- readDigits 2 0 l ;;
  l <- expect ":" l ;;
  '(ss, l) <- readDigits 2 0 l ;;
  '(ms, l) <- match l with
              | "."%char :: l' => readDigits 3 0 l'
              | _ => Some (0, l)
              end ;;
  match l with
  | ["Z"%char] =>
      if (hh <=? 23) && (mi <=? 59) && (ss <=? 59)
      then Some (((hh * 60 + mi) * 60 + ss) * 1000 + ms)
      else None
  | _ => None
  end.

Definition parse (s : string) : JS.number :=
  '(y, l) <- readDigits 4 0 (list_ascii_of_string s) ;;
  l <- expect "-" l ;;
  '(m, l) <- readDigits 2 0 l ;;
  l <- expect "-" l ;;
  '(d, l) <- readDigits 2 0 l ;;
  if (1 <=? m) && (m <=? 12) && (1 <=? d) && (d <=? daysInMonth y m)
  then
    let day := daysFromCivil y m d * msPerDay in
    match l with
    | [] => Some day
    | "T"%char :: l' => t <- readTime l' ;; Some (day + t)
    | _ => None
    end
  else None.

(** [z] in decimal, padded with zeros on the left to [width] digits. *)
Fixpoint pad (width : nat) (z : Z) : string :=
  match width with
  | O => ""
  | S w => pad w (z / 10) ++ String (ascii_of_nat (Z.to_nat (48 + z mod 10))) ""
  end.

(** [YYYY-MM-DDTHH:mm:ss.sssZ]; six digits and a sign for a year outside
    0000..9999. *)
Definition print (t : Z) : string :=
  let day := t / msPerDay in
  let ms := t mod msPerDay in
  let '(y, m, d) := civilFromDays day in
  (if (0 <=? y) && (y <=? 9999) then pad 4 y
   else (if y <? 0 then "-" else "+") ++ pad 6 (Z.abs y))
  ++ "-" ++ pad 2 m ++ "-" ++ pad 2 d
  ++ "T" ++ pad 2 (ms / 3600000) ++ ":" ++ pad 2 (ms / 60000 mod 60)
  ++ ":" ++ pad 2 (ms / 1000 mod 60) ++ "." ++ pad 3 (ms mod 1000) ++ "Z".

(** The date the [en-US] locale prints, in UTC. *)
Definition printLocaleDate (n : JS.number) : string :=
  match n with
  | Some t =>
      let '(y, m, d) := civilFromDays (t / msPerDay) in
      JS.showZ m ++ "/" ++ JS.showZ d ++ "/" ++ JS.showZ y
  | None => "Invalid Date"
  end.

(** The previous calendar day in UTC, a zone without clock changes. *)
Definition dayBefore (t : Z) : Z := t - msPerDay.

End IsoDate.

#[export] Instance isoDate : DateApi | 100 := {|
  parseDate := IsoDate.parse;
  toISOString := IsoDate.print;
  toLocaleDateString := IsoDate.printLocaleDate;
  oneDayEarlier := IsoDate.dayBefore
|}.

(** ** Sample data: two requests, an administrator and a student *)

Module Sample.

Definition alice : User.t :=
  {| User.id := "s1"; User.role := student; User.displayName := "Alice" |}.

Definition root : User.t :=
  {| User.id := "a1"; User.role := admin; User.displayName := "Admin" |}.

(** The pending request of the first scenario of the specification. *)
Definition r1 : BorrowRequest.t :=
  {| BorrowRequest.id := "r1";
     BorrowRequest.studentId := "s1";
     BorrowRequest.studentName := "Alice";
     BorrowRequest.componentName := "Oscilloscope";
     BorrowRequest.quantity := 1;
     BorrowRequest.status := pending;
     BorrowRequest.requestDate := "2024-01-01T10:00:00Z";
     BorrowRequest.approvedDate := None;
     BorrowRequest.approvedBy := None;
     BorrowRequest.returnedDate := None;
     BorrowRequest.dueDate := None;
     BorrowRequest.adminNotes := None |}.

(** An approved request [i], due on [due]. *)
Definition approvedRequest (i due : string) : BorrowRequest.t :=
  {| BorrowRequest.id := i;
     BorrowRequest.studentId := "s1";
     BorrowRequest.studentName := "Alice";
     BorrowRequest.componentName := "Oscilloscope";
     BorrowRequest.quantity := 1;
     BorrowRequest.status := approved;
     BorrowRequest.requestDate := "2024-01-01T10:00:00Z";
     BorrowRequest.approvedDate := Some "2024-01-02T09:00:00Z";
     BorrowRequest.approvedBy := Some "Admin";
     BorrowRequest.returnedDate := None;
     BorrowRequest.dueDate := Some due;
     BorrowRequest.adminNotes := None |}.

(** The request [r1] once approved, as in the second scenario. *)
Definition r1Approved (due : string) : BorrowRequest.t :=
  approvedRequest "r1" due.

(** A pending request [i] whose request date reads [date]. *)
Definition pendingRequest (i date : string) : BorrowRequest.t :=
  {| BorrowRequest.id := i;
     BorrowRequest.studentId := "s2";
     BorrowRequest.studentName := "Bob";
     BorrowRequest.componentName := "Breadboard";
     BorrowRequest.quantity := 3;
     BorrowRequest.status := pending;
     BorrowRequest.requestDate := date;
     BorrowRequest.approvedDate := None;
     BorrowRequest.approvedBy := None;
     BorrowRequest.returnedDate := None;
     BorrowRequest.dueDate := None;
     BorrowRequest.adminNotes := None |}.

(** A second request, rejected. *)
Definition r2 : BorrowRequest.t :=
  {| BorrowRequest.id := "r2";
     BorrowRequest.studentId := "s1";
     BorrowRequest.studentName := "Alice";
     BorrowRequest.componentName := "Multimeter";
     BorrowRequest.quantity := 2;
     BorrowRequest.status := rejected;
     BorrowRequest.requestDate := "2024-01-03T08:30:00Z";
     BorrowRequest.approvedDate := None;
     BorrowRequest.approvedBy := None;
     BorrowRequest.returnedDate := None;
     BorrowRequest.dueDate := None;
     BorrowRequest.adminNotes := Some "Out of stock" |}.

(** 2024-01-05T10:07:00.000Z. *)
Definition now : Z := 1704449220000.

(** The activity item of the submission of [r1]. *)
Definition submission1 : ActivityItem.t :=
  {| ActivityItem.id := "request_r1";
     ActivityItem.type := ActivityItem.request;
     ActivityItem.title := "Component Request Submitted";
     ActivityItem.description := "Alice requested Oscilloscope (1 units)";
     ActivityItem.timestamp := "2024-01-01T10:00:00Z";
     ActivityItem.user := "Alice";
     ActivityItem.component := "Oscilloscope";
     ActivityItem.status := "pending";
     ActivityItem.priority := medium |}.

End Sample.

(** ** Positions and counts in a list *)

Local Open Scope list_scope.

(** [count p l]: how many elements of [l] satisfy [p]. *)
Definition count {A : Type} (p : A -> bool) (l : list A) : nat :=
  List.length (List.filter p l).

Arguments count : simpl never.

(** [x] and [y] are next to each other in [l], [x] first. *)
Definition adjacent {A : Type} (x y : A) (l : list A) : Prop :=
  exists l1 l2, l = l1 ++ x :: y :: l2.

(** An occurrence of [x] comes before an occurrence of [y] in [l]. *)
Definition precedes {A : Type} (x y : A) (l : list A) : Prop :=
  exists l1 l2 l3, l = l1 ++ x :: l2 ++ y :: l3.

(** ** Vocabulary of the properties *)

Import NotificationCenter ActivityFeed.

(** Two notifications that differ at most in [read]. *)
Definition sameButRead (n m : Notification.t) : Prop :=
  m.(Notification.id) = n.(Notification.id)
  /\ m.(Notification.type) = n.(Notification.type)
  /\ m.(Notification.title) = n.(Notification.title)
  /\ m.(Notification.message) = n.(Notification.message)
  /\ m.(Notification.timestamp) = n.(Notification.timestamp)
  /\ m.(Notification.requestId) = n.(Notification.requestId)
  /\ m.(Notification.priority) = n.(Notification.priority).

(** The timestamp of a notification is a date the browser can read. *)
Definition validTimestamp `{DateApi} (n : Notification.t) : Prop :=
  parseDate n.(Notification.timestamp) <> None.

(** The rank of a notification in the ordering: high 3, medium 2, low 1. *)
Definition priorityRank (n : Notification.t) : Z :=
  priorityOrder n.(Notification.priority).

(** [x] may stand right before [y]: a higher rank, or the same rank and a
    timestamp that is not older. *)
Definition inOrder `{DateApi} (x y : Notification.t) : Prop :=
  priorityRank x > priorityRank y
  \/ (priorityRank x = priorityRank y
      /\ JS.ge (parseDate x.(Notification.timestamp))
               (parseDate y.(Notification.timestamp)) = true).

(** The ordering invariant for one derivation: every two neighbours of the
    list returned are in order. *)
Definition NotificationsOrdered `{DateApi} (u : User.t) (now : Z)
    (requests : list BorrowRequest.t) : Prop :=
  forall x y, adjacent x y (deriveNotifications u now requests) -> inOrder x y.





(** Read-state preservation as the specification words it, for one tick: an
    identifier that was marked read in the previous list and that the new
    synthesis produces again is still read in the resulting list. *)
Definition ReadStatePreserved `{DateApi} (u : User.t) (now : Z)
    (requests : list BorrowRequest.t) (prev : list Notification.t) : Prop :=
  forall x,
    (exists n, In n prev /\ n.(Notification.id) = x
               /\ n.(Notification.read) = true) ->
    (exists m, In m (userNotifications u now requests)
               /\ m.(Notification.id) = x) ->
    forall m, In m (loadNotifications (Some u) now requests prev) ->
              m.(Notification.id) = x -> m.(Notification.read) = true.

(** An activity item of kind [k] with identifier [i]. *)
Definition isActivity (k : ActivityItem.kind) (i : string)
    (a : ActivityItem.t) : bool :=
  ActivityFeed.kind_eqb a.(ActivityItem.type) k
  && (a.(ActivityItem.id) =? i)%string.

(** Every two neighbours of a list of notifications are in order. *)
Definition Ordered `{DateApi} (l : list Notification.t) : Prop :=
  forall x y, adjacent x y l -> inOrder x y.

(** An unread notification with the identifier [i]. *)
Definition isUnread (i : string) (n : Notification.t) : bool :=
  negb n.(Notification.read) && (n.(Notification.id) =? i)%string.

(** The time value of the timestamp of an activity item. *)
Definition activityTime `{DateApi} (a : ActivityItem.t) : JS.number :=
  parseDate a.(ActivityItem.timestamp).

(** The timestamp of an activity item is a date the browser can read. *)
Definition validActivity `{DateApi} (a : ActivityItem.t) : Prop :=
  activityTime a <> None.

(** [x] may stand before [y] in the feed: its timestamp is not older. *)
Definition notOlder `{DateApi} (x y : ActivityItem.t) : Prop :=
  JS.ge (activityTime x) (activityTime y) = true.

(** The prefix that the identifier of an activity item of kind [k] puts
    before the identifier of its request. *)
Definition activityPrefix (k : ActivityItem.kind) : string :=
  match k with
  | ActivityItem.request => "request_"
  | ActivityItem.approval => "approval_"
  | ActivityItem.checkout => "checkout_"
  | ActivityItem.return_ => "return_"
  | ActivityItem.rejection => "rejection_"
  end.

(** What the list stored by [loadActivities] shows of an approved request
    [r], as the specification words it: exactly one request item, one
    approval item and one checkout item of [r], the approval item before the
    checkout item, with the same timestamp. *)
Definition ApprovedRequestShown `{DateApi} (filter : Filter.t) (maxItems : Z)
    (requests : list BorrowRequest.t) (r : BorrowRequest.t) : Prop :=
  let stored := deriveActivities filter maxItems requests in
  let rid := r.(BorrowRequest.id) in
  count (isActivity ActivityItem.request ("request_" ++ rid)%string) stored
  = 1%nat
  /\ count (isActivity ActivityItem.approval ("approval_" ++ rid)%string)
           stored = 1%nat
  /\ count (isActivity ActivityItem.checkout ("checkout_" ++ rid)%string)
           stored = 1%nat
  /\ exists a c,
       precedes a c stored
       /\ a.(ActivityItem.id) = ("approval_" ++ rid)%string
       /\ c.(ActivityItem.id) = ("checkout_" ++ rid)%string
       /\ a.(ActivityItem.timestamp) = c.(ActivityItem.timestamp).

(** * Properties *)

(** Splits the goal, or the hypothesis [H], along every [if] it contains. *)
Ltac split_ifs :=
  repeat match goal with
         | |- context [if ?b then _ else _] => destruct b
         end.

Ltac split_ifs_in H :=
  repeat match type of H with
         | context [if ?b then _ else _] => destruct b
         end.

(** ** Lists *)

Lemma count_app {A : Type} (p : A -> bool) (l1 l2 : list A) :
  count p (l1 ++ l2) = (count p l1 + count p l2)%nat.
Proof.
  unfold count. now rewrite filter_app, length_app.
Qed.

Lemma count_cons {A : Type} (p : A -> bool) (x : A) (l : list A) :
  count p (x :: l) = ((if p x then 1 else 0) + count p l)%nat.
Proof.
  unfold count. simpl. now destruct (p x).
Qed.

Lemma count_zero_iff {A : Type} (p : A -> bool) (l : list A) :
  count p l = 0%nat <-> forall x, In x l -> p x = false.
Proof.
  induction l as [|a l IH].
  - split; [intros _ x []|reflexivity].
  - rewrite count_cons. split.
    + intros E x [<-|Hx].
      * destruct (p a); [discriminate|reflexivity].
      * apply IH; [destruct (p a); [discriminate|exact E]|exact Hx].
    + intros Hall. rewrite (Hall a (or_introl eq_refl)). simpl.
      apply IH. intros x Hx. apply Hall. now right.
Qed.

Lemma count_flat_map {A B : Type} (p : B -> bool) (f : A -> list B) (l : list A) :
  count p (flat_map f l) = list_sum (map (fun x => count p (f x)) l).
Proof.
  induction l as [|a l IH]; [reflexivity|].
  simpl. now rewrite count_app, IH.
Qed.

(** Among records with pairwise distinct keys, a count that only the records of
    one key feed is the count of the record of that key. *)
Lemma count_flat_map_unique {A B : Type} (key : A -> string) (p : B -> bool)
    (f : A -> list B) (l : list A) (r : A) :
  NoDup (map key l) -> In r l ->
  (forall q, key q <> key r -> count p (f q) = 0%nat) ->
  count p (flat_map f l) = count p (f r).
Proof.
  intros Hnd Hin Hother. induction l as [|a l IH]; [destruct Hin|].
  simpl in Hnd. apply NoDup_cons_iff in Hnd. destruct Hnd as [Hnotin Hnd].
  simpl. rewrite count_app. destruct Hin as [->|Hin].
  - assert (Hz : count p (flat_map f l) = 0%nat).
    { rewrite count_flat_map. clear IH Hnd.
      induction l as [|b l IHl]; [reflexivity|]. simpl.
      rewrite Hother.
      - apply IHl. intros Hin. apply Hnotin. now right.
      - intros E. apply Hnotin. left. exact E. }
    lia.
  - rewrite (IH Hnd Hin), Hother; [reflexivity|].
    intros E. apply Hnotin. rewrite E. now apply in_map.
Qed.


Lemma adjacent_firstn {A : Type} (x y : A) (n : nat) (l : list A) :
  adjacent x y (firstn n l) -> adjacent x y l.
Proof.
  intros (l1 & l2 & E). exists l1, (l2 ++ skipn n l).
  rewrite <- (firstn_skipn n l) at 1. rewrite E.
  now rewrite <- app_assoc.
Qed.

Lemma precedes_cons {A : Type} (x y a : A) (l : list A) :
  precedes x y l -> precedes x y (a :: l).
Proof.
  intros (l1 & l2 & l3 & ->). now exists (a :: l1), l2, l3.
Qed.

Lemma precedes_head {A : Type} (x y : A) (l : list A) :
  In y l -> precedes x y (x :: l).
Proof.
  intros Hin. apply in_split in Hin. destruct Hin as (l2 & l3 & ->).
  now exists [], l2, l3.
Qed.

Lemma precedes_app_l {A : Type} (x y : A) (l0 l : list A) :
  precedes x y l -> precedes x y (l0 ++ l).
Proof.
  induction l0 as [|a l0 IH]; [trivial|].
  intros Hp. simpl. apply precedes_cons. now apply IH.
Qed.


Lemma precedes_later {A : Type} (x y : A) (l : list A) :
  precedes x y l -> exists l1 l2, l = l1 ++ x :: l2 /\ In y l2.
Proof.
  intros (l1 & l2 & l3 & ->). exists l1, (l2 ++ y :: l3).
  split; [reflexivity|]. apply in_or_app. right. now left.
Qed.

(** ** [slice] *)

Section SliceFacts.
Context {A : Type}.

Lemma slice0_nonneg (n : Z) (l : list A) :
  0 <= n -> JS.slice0 n l = firstn (Z.to_nat n) l.
Proof.
  intros Hn. unfold JS.slice0.
  destruct (n <? 0) eqn:E; [apply Z.ltb_lt in E; lia|reflexivity].
Qed.

Lemma slice0_prefix (n : Z) (l : list A) :
  exists k, JS.slice0 n l = firstn k l.
Proof.
  unfold JS.slice0. destruct (n <? 0); eexists; reflexivity.
Qed.

Lemma slice0_length_le (n : Z) (l : list A) :
  0 <= n -> Z.of_nat (List.length (JS.slice0 n l)) <= n.
Proof.
  intros Hn. rewrite (slice0_nonneg n l Hn), length_firstn. lia.
Qed.

Lemma slice0_all (n : Z) (l : list A) :
  Z.of_nat (List.length l) <= n -> JS.slice0 n l = l.
Proof.
  intros Hn. rewrite slice0_nonneg by lia. apply firstn_all2. lia.
Qed.

Lemma slice0_In (n : Z) (l : list A) (x : A) :
  In x (JS.slice0 n l) -> In x l.
Proof.
  destruct (slice0_prefix n l) as [k ->].
  intros Hin. rewrite <- (firstn_skipn k l). apply in_or_app. now left.
Qed.

Lemma slice0_adjacent (n : Z) (l : list A) (x y : A) :
  adjacent x y (JS.slice0 n l) -> adjacent x y l.
Proof.
  destruct (slice0_prefix n l) as [k ->]. apply adjacent_firstn.
Qed.

End SliceFacts.

(** ** [sort] *)

Section SortFacts.
Context {A : Type}.
Variable comparefn : A -> A -> JS.number.

Local Abbreviation insert := (JS.insert comparefn).
Local Abbreviation sort := (JS.sort comparefn).
Local Abbreviation sortCompare := (JS.sortCompare comparefn).

Lemma insert_perm (x : A) (l : list A) : Permutation (insert x l) (x :: l).
Proof.
  induction l as [|y l IH]; simpl.
  - apply Permutation_refl.
  - destruct (0 <? sortCompare x y).
    + apply perm_trans with (y :: x :: l).
      * now apply perm_skip.
      * apply perm_swap.
    + apply Permutation_refl.
Qed.

Lemma sort_perm (l : list A) : Permutation (sort l) l.
Proof.
  induction l as [|x l IH]; simpl.
  - apply perm_nil.
  - apply perm_trans with (x :: sort l).
    + apply insert_perm.
    + now apply perm_skip.
Qed.

Lemma sort_In (l : list A) (x : A) : In x (sort l) <-> In x l.
Proof.
  split; apply Permutation_in;
    [apply sort_perm | apply Permutation_sym, sort_perm].
Qed.

Lemma sort_length (l : list A) : List.length (sort l) = List.length l.
Proof. apply Permutation_length, sort_perm. Qed.

Lemma count_insert (p : A -> bool) (x : A) (l : list A) :
  count p (insert x l) = count p (x :: l).
Proof.
  induction l as [|y l IH]; simpl; [reflexivity|].
  destruct (0 <? sortCompare x y); [|reflexivity].
  rewrite (count_cons p y), IH, !count_cons. lia.
Qed.

Lemma count_sort (p : A -> bool) (l : list A) : count p (sort l) = count p l.
Proof.
  induction l as [|x l IH]; simpl; [reflexivity|].
  now rewrite count_insert, !count_cons, IH.
Qed.

(** *** The result is ordered, when the comparator decides an order

    [P] singles out the elements on which the comparator is meaningful (for a
    date comparator: the ones with a valid date); on them, a result [<= 0]
    means [R x y] and a result [> 0] means [R y x]. *)

Section Ordered.
Variable P : A -> Prop.
Variable R : A -> A -> Prop.
Hypothesis keep_ok : forall x y, P x -> P y -> sortCompare x y <= 0 -> R x y.
Hypothesis swap_ok : forall x y, P x -> P y -> 0 < sortCompare x y -> R y x.

Lemma insert_HdRel (a x : A) (l : list A) :
  R a x -> HdRel R a l -> HdRel R a (insert x l).
Proof.
  intros Hax Hal. destruct l as [|y l]; simpl.
  - now constructor.
  - destruct (0 <? sortCompare x y); constructor.
    + now apply HdRel_inv in Hal.
    + exact Hax.
Qed.

Lemma insert_Sorted (x : A) (l : list A) :
  P x -> Forall P l -> Sorted R l -> Sorted R (insert x l).
Proof.
  intros Px. induction l as [|y l IH]; intros HP Hs; simpl.
  - repeat constructor.
  - apply Forall_cons_iff in HP. destruct HP as [Py HP].
    apply Sorted_inv in Hs. destruct Hs as [Hs Hhd].
    destruct (0 <? sortCompare x y) eqn:E.
    + apply Z.ltb_lt in E. constructor.
      * now apply IH.
      * apply insert_HdRel; [now apply swap_ok|exact Hhd].
    + apply Z.ltb_ge in E. constructor.
      * now constructor.
      * constructor. now apply keep_ok.
Qed.

Lemma sort_Sorted (l : list A) : Forall P l -> Sorted R (sort l).
Proof.
  induction l as [|x l IH]; intros HP; simpl.
  - constructor.
  - apply Forall_cons_iff in HP. destruct HP as [Px HP].
    apply insert_Sorted; [exact Px| |now apply IH].
    rewrite Forall_forall in HP. apply Forall_forall.
    intros y Hy. apply HP. now apply sort_In.
Qed.

End Ordered.

Lemma Sorted_adjacent (R : A -> A -> Prop) (l : list A) (x y : A) :
  Sorted R l -> adjacent x y l -> R x y.
Proof.
  intros Hs (l1 & l2 & ->). induction l1 as [|a l1 IH]; simpl in Hs.
  - apply Sorted_inv in Hs. destruct Hs as [_ Hhd]. now apply HdRel_inv in Hhd.
  - apply Sorted_inv in Hs. now apply IH.
Qed.

(** *** The sort is stable

    An element never moves behind a later element it does not have to
    follow. *)

Lemma insert_precedes_old (a b x : A) (l : list A) :
  precedes a b l -> precedes a b (insert x l).
Proof.
  intros Hp. apply precedes_later in Hp. destruct Hp as (l1 & l2 & -> & Hb).
  induction l1 as [|y l1 IH]; simpl.
  - destruct (0 <? sortCompare x a).
    + apply precedes_head. apply Permutation_in with (x :: l2).
      * apply Permutation_sym, insert_perm.
      * now right.
    + apply precedes_cons. now apply precedes_head.
  - destruct (0 <? sortCompare x y).
    + now apply precedes_cons.
    + do 2 apply precedes_cons. apply precedes_app_l. now apply precedes_head.
Qed.

Lemma insert_precedes_new (a b : A) (l : list A) :
  In b l -> sortCompare a b <= 0 -> precedes a b (insert a l).
Proof.
  intros Hb Hle. induction l as [|y l IH]; [destruct Hb|]. simpl.
  destruct (0 <? sortCompare a y) eqn:E.
  - apply Z.ltb_lt in E. destruct Hb as [->|Hb]; [lia|].
    apply precedes_cons. now apply IH.
  - apply precedes_head. exact Hb.
Qed.

Lemma sort_precedes (a b : A) (l : list A) :
  precedes a b l -> sortCompare a b <= 0 -> precedes a b (sort l).
Proof.
  intros (l1 & l2 & l3 & ->) Hle. induction l1 as [|y l1 IH]; simpl.
  - apply insert_precedes_new; [|exact Hle].
    apply sort_In. apply in_or_app. right. now left.
  - now apply insert_precedes_old.
Qed.

End SortFacts.

(** ** Read state: [markAsRead] and [markAllAsRead] *)

Lemma sameButRead_refl (n : Notification.t) : sameButRead n n.
Proof. repeat split. Qed.

Lemma sameButRead_setRead (n : Notification.t) : sameButRead n (setRead n).
Proof. repeat split. Qed.

Lemma markAsRead_absent (i : string) (l : list Notification.t) :
  (forall n, In n l -> n.(Notification.id) <> i) -> markAsRead i l = l.
Proof.
  intros Habs. unfold markAsRead. induction l as [|n l IH]; [reflexivity|].
  simpl. destruct (String.eqb_spec n.(Notification.id) i) as [E|_].
  - exfalso. now apply (Habs n (or_introl eq_refl)).
  - f_equal. apply IH. intros m Hm. apply Habs. now right.
Qed.

Lemma unreadCount_markAllAsRead (l : list Notification.t) :
  unreadCount (markAllAsRead l) = 0%nat.
Proof.
  unfold unreadCount, markAllAsRead.
  induction l as [|n l IH]; [reflexivity|exact IH].
Qed.

(** C9.  [markAsRead i] sets [read] on every notification of the list whose
    identifier is [i]: such a notification of the old list is in the new one
    with [read = true], and no notification of the new list with that
    identifier is unread.  When no notification has the identifier, the list
    is returned as it was.  [markAllAsRead] sets [read] on every notification.
    Both are total functions: there is no list and no identifier on which they
    fail. *)
Theorem markAsRead_markAllAsRead_spec (i : string) (l : list Notification.t) :
  (forall n, In n l -> n.(Notification.id) = i ->
     In (setRead n) (markAsRead i l))
  /\ (forall m, In m (markAsRead i l) -> m.(Notification.id) = i ->
        m.(Notification.read) = true)
  /\ ((forall n, In n l -> n.(Notification.id) <> i) -> markAsRead i l = l)
  /\ (forall n, In n l -> In (setRead n) (markAllAsRead l))
  /\ (forall m, In m (markAllAsRead l) -> m.(Notification.read) = true).
Proof.
  unfold markAsRead, markAllAsRead. repeat split.
  - intros n Hn Hid. apply in_map_iff. exists n. split; [|exact Hn].
    apply String.eqb_eq in Hid. now rewrite Hid.
  - intros m Hm Hid. apply in_map_iff in Hm. destruct Hm as (n & <- & _).
    destruct (String.eqb_spec n.(Notification.id) i) as [_|Hne].
    + reflexivity.
    + now elim Hne.
  - apply markAsRead_absent.
  - intros n Hn. now apply in_map.
  - intros m Hm. apply in_map_iff in Hm. now destruct Hm as (n & <- & _).
Qed.

(** C10.  Frame of the two operations: the list keeps its length, and at every
    position the notification keeps its identifier, kind, title, message,
    timestamp, request identifier and priority, so the order is the same;
    [markAsRead i] moreover returns every notification whose identifier is not
    [i] as it was, [read] included. *)
Theorem read_operations_frame (i : string) (l : list Notification.t) :
  List.length (markAsRead i l) = List.length l
  /\ List.length (markAllAsRead l) = List.length l
  /\ (forall k n, nth_error l k = Some n ->
        exists m, nth_error (markAsRead i l) k = Some m
                  /\ sameButRead n m
                  /\ (n.(Notification.id) <> i -> m = n))
  /\ (forall k n, nth_error l k = Some n ->
        exists m, nth_error (markAllAsRead l) k = Some m /\ sameButRead n m).
Proof.
  unfold markAsRead, markAllAsRead. repeat split.
  - apply length_map.
  - apply length_map.
  - intros k n Hk. eexists. split.
    + rewrite nth_error_map, Hk. reflexivity.
    + destruct (String.eqb_spec n.(Notification.id) i) as [E|Hne].
      * split; [apply sameButRead_setRead|]. intros Hne. now elim Hne.
      * split; [apply sameButRead_refl|reflexivity].
  - intros k n Hk. exists (setRead n). split.
    + now rewrite nth_error_map, Hk.
    + apply sameButRead_setRead.
Qed.

(** ** [loadNotifications]: identity, truncation, recomputation *)

Section NotificationState.
Context `{DateApi}.

Lemma deriveNotifications_firstn (u : User.t) (now : Z)
    (requests : list BorrowRequest.t) :
  deriveNotifications u now requests
  = firstn 20 (JS.sort compareNotifications (userNotifications u now requests)).
Proof. unfold deriveNotifications. now rewrite slice0_nonneg by lia. Qed.

Lemma deriveNotifications_length (u : User.t) (now : Z)
    (requests : list BorrowRequest.t) :
  (List.length (deriveNotifications u now requests) <= 20)%nat.
Proof. rewrite deriveNotifications_firstn. apply firstn_le_length. Qed.

Lemma deriveNotifications_In (u : User.t) (now : Z)
    (requests : list BorrowRequest.t) (n : Notification.t) :
  In n (deriveNotifications u now requests) ->
  In n (userNotifications u now requests).
Proof.
  intros Hn. apply slice0_In in Hn. now apply sort_In in Hn.
Qed.

Lemma step_length (cu : option User.t) (st : list Notification.t) (e : Event) :
  (List.length st <= 20)%nat -> (List.length (step cu st e) <= 20)%nat.
Proof.
  intros Hst. destruct e as [now requests|i|]; simpl.
  - destruct cu as [u|]; simpl; [apply deriveNotifications_length|exact Hst].
  - unfold markAsRead. now rewrite length_map.
  - unfold markAllAsRead. now rewrite length_map.
Qed.

(** An invariant of the state holds after every sequence of events when the
    initial state has it and every event keeps it. *)
Lemma run_invariant (cu : option User.t) (Inv : list Notification.t -> Prop) :
  Inv initialNotifications ->
  (forall st e, Inv st -> Inv (step cu st e)) ->
  forall es, Inv (run cu es).
Proof.
  intros H0 Hstep es. unfold run.
  generalize dependent initialNotifications.
  induction es as [|e es IH]; intros st Hst; simpl.
  - exact Hst.
  - apply IH. now apply Hstep.
Qed.

Lemma step_without_user (st : list Notification.t) (e : Event) :
  st = [] -> step None st e = [].
Proof. intros ->. now destruct e. Qed.

(** Every notification the synthesis creates is unread. *)
Lemma userNotifications_unread (u : User.t) (now : Z)
    (requests : list BorrowRequest.t) (n : Notification.t) :
  In n (userNotifications u now requests) -> n.(Notification.read) = false.
Proof.
  unfold userNotifications, adminNotifications, studentNotifications.
  destruct u.(User.role).
  - rewrite !in_app_iff, !in_map_iff.
    intros [(r & <- & _)|[(r & <- & _)|[(r & <- & _)|(r & <- & _)]]];
      reflexivity.
  - rewrite in_flat_map. intros (r & _ & Hn). unfold studentNotificationsOf in Hn.
    rewrite !in_app_iff in Hn.
    split_ifs_in Hn; simpl in Hn; intuition (subst; reflexivity).
Qed.

(** C7.  Without a current user [loadNotifications] returns before it sets
    anything: on the initial state of the component the list stays empty, for
    every request collection and every [now], and it is still empty after any
    sequence of ticks and read-state clicks. *)
Theorem no_notifications_without_user (now : Z)
    (requests : list BorrowRequest.t) (es : list Event) :
  loadNotifications None now requests initialNotifications = []
  /\ run None es = [].
Proof.
  split; [reflexivity|].
  apply (run_invariant None (fun st => st = [])); [reflexivity|].
  intros st e. apply step_without_user.
Qed.

(** C1 (as amended).  A recomputation with a current user replaces the list by
    the first 20 notifications of the freshly ordered synthesis, whatever the
    previous list was: every notification of the result is unread, also one
    whose identifier was read before, and every notification of the result
    comes from the new synthesis, so an identifier absent from it does not
    appear. *)
Theorem loadNotifications_replaces_list (u : User.t) (now : Z)
    (requests : list BorrowRequest.t) (prev : list Notification.t) :
  let next := loadNotifications (Some u) now requests prev in
  next = deriveNotifications u now requests
  /\ (forall n, In n next -> n.(Notification.read) = false)
  /\ (forall n, In n next -> In n (userNotifications u now requests))
  /\ (forall x, (forall m, In m (userNotifications u now requests) ->
                   m.(Notification.id) <> x) ->
                forall n, In n next -> n.(Notification.id) <> x).
Proof.
  simpl. repeat split.
  - intros n Hn. apply deriveNotifications_In in Hn.
    now apply userNotifications_unread in Hn.
  - apply deriveNotifications_In.
  - intros x Habs n Hn. apply Habs. now apply deriveNotifications_In.
Qed.

(** A tick with the same user, requests and [now] leads to the same list when
    it is run a second time, and, with a current user, to the same list from
    any two previous lists. *)
Lemma loadNotifications_idempotent (cu : option User.t) (now : Z)
    (requests : list BorrowRequest.t) (prev prev' : list Notification.t)
    (u : User.t) :
  loadNotifications cu now requests (loadNotifications cu now requests prev)
  = loadNotifications cu now requests prev
  /\ loadNotifications (Some u) now requests prev
     = loadNotifications (Some u) now requests prev'.
Proof. split; [now destruct cu|reflexivity]. Qed.

End NotificationState.

(** ** Ordering of the notifications *)

Section NotificationOrder.
Context `{DateApi}.

Lemma compareNotifications_keep (x y : Notification.t) :
  validTimestamp x -> validTimestamp y ->
  JS.sortCompare compareNotifications x y <= 0 -> inOrder x y.
Proof.
  unfold validTimestamp, inOrder, priorityRank, JS.sortCompare,
    compareNotifications.
  intros Hx Hy.
  destruct (Z.eqb_spec (priorityOrder x.(Notification.priority))
                       (priorityOrder y.(Notification.priority))) as [E|NE];
    simpl.
  - destruct (parseDate x.(Notification.timestamp)) as [tx|]; [|now elim Hx].
    destruct (parseDate y.(Notification.timestamp)) as [ty|]; [|now elim Hy].
    simpl. intros Hle. right. split; [exact E|]. apply Z.leb_le. lia.
  - intros Hle. left. lia.
Qed.

Lemma compareNotifications_swap (x y : Notification.t) :
  validTimestamp x -> validTimestamp y ->
  0 < JS.sortCompare compareNotifications x y -> inOrder y x.
Proof.
  unfold validTimestamp, inOrder, priorityRank, JS.sortCompare,
    compareNotifications.
  intros Hx Hy.
  destruct (Z.eqb_spec (priorityOrder x.(Notification.priority))
                       (priorityOrder y.(Notification.priority))) as [E|NE];
    simpl.
  - destruct (parseDate x.(Notification.timestamp)) as [tx|]; [|now elim Hx].
    destruct (parseDate y.(Notification.timestamp)) as [ty|]; [|now elim Hy].
    simpl. intros Hlt. right. split; [now symmetry|]. apply Z.leb_le. lia.
  - intros Hlt. left. lia.
Qed.

(** C4 (as amended).  When the timestamp of every synthesised notification is
    a date, every two neighbours [x], [y] of the list the derivation returns
    have [priorityRank x > priorityRank y], or the same rank and
    [x.timestamp >= y.timestamp] as time values; the rank is 3 for high, 2 for
    medium and 1 for low, and it is compared first, so the priority always
    wins over recency. *)
Theorem notifications_ordered (u : User.t) (now : Z)
    (requests : list BorrowRequest.t) (x y : Notification.t) :
  Forall validTimestamp (userNotifications u now requests) ->
  adjacent x y (deriveNotifications u now requests) ->
  (priorityRank x > priorityRank y
   \/ (priorityRank x = priorityRank y
       /\ JS.ge (parseDate x.(Notification.timestamp))
                (parseDate y.(Notification.timestamp)) = true))
  /\ priorityOrder high = 3 /\ priorityOrder medium = 2
  /\ priorityOrder low = 1.
Proof.
  intros Hvalid Hadj. split; [|now repeat split].
  apply slice0_adjacent in Hadj. revert Hadj.
  apply (Sorted_adjacent inOrder).
  apply (sort_Sorted compareNotifications validTimestamp inOrder).
  - apply compareNotifications_keep.
  - apply compareNotifications_swap.
  - exact Hvalid.
Qed.

End NotificationOrder.

(** ** The overdue reminders of the administrator *)

Section AdminReminders.
Context `{DateApi}.

Lemma isOverdue_iff (now : Z) (r : BorrowRequest.t) :
  r.(BorrowRequest.status) = approved ->
  (isOverdue now r = true
   <-> exists due, dateOf r.(BorrowRequest.dueDate) = Some due /\ due < now).
Proof.
  intros Hst. unfold isOverdue. rewrite Hst. simpl.
  destruct (dateOf r.(BorrowRequest.dueDate)) as [d|]; simpl.
  - rewrite Z.ltb_lt. split.
    + intros Hlt. now exists d.
    + intros (due & [= <-] & Hlt). exact Hlt.
  - split; [discriminate|]. now intros (due & [=] & _).
Qed.

(** The due date of an overdue request is present, so the timestamp of its
    reminder is that string. *)
Lemma isOverdue_dueDate (now : Z) (r : BorrowRequest.t) :
  isOverdue now r = true ->
  exists s, r.(BorrowRequest.dueDate) = Some s
            /\ (overdueNotification r).(Notification.timestamp) = s.
Proof.
  unfold isOverdue. destruct (negb _); [discriminate|].
  destruct r.(BorrowRequest.dueDate) as [s|] eqn:E; simpl; [|discriminate].
  intros _. exists s. split; [reflexivity|].
  unfold overdueNotification. simpl. now rewrite E.
Qed.








End AdminReminders.

(** ** The activity feed *)

Section ActivityFacts.
Context `{DateApi}.

Lemma kind_eqb_eq (a b : ActivityItem.kind) :
  ActivityFeed.kind_eqb a b = true <-> a = b.
Proof. destruct a, b; simpl; split; congruence. Qed.

Lemma filteredActivities_filter (f : Filter.t)
    (requests : list BorrowRequest.t) :
  filteredActivities f requests
  = List.filter (matchesFilter f) (sortedActivities requests).
Proof.
  destruct f; try reflexivity.
  unfold filteredActivities. symmetry. apply forallb_filter_id.
  apply forallb_forall. reflexivity.
Qed.

Lemma filteredActivities_In (f : Filter.t) (requests : list BorrowRequest.t)
    (a : ActivityItem.t) :
  In a (filteredActivities f requests)
  <-> In a (activityItems requests) /\ matchesFilter f a = true.
Proof.
  rewrite filteredActivities_filter, filter_In.
  unfold sortedActivities. now rewrite sort_In.
Qed.

Lemma deriveActivities_In (f : Filter.t) (maxItems : Z)
    (requests : list BorrowRequest.t) (a : ActivityItem.t) :
  In a (deriveActivities f maxItems requests) ->
  In a (activityItems requests) /\ matchesFilter f a = true.
Proof.
  intros Ha. apply slice0_In in Ha. now apply filteredActivities_In.
Qed.

(** The items of an approved request whose approval date is present. *)
Lemma itemsOf_approved (r : BorrowRequest.t) (t : string) :
  r.(BorrowRequest.status) = approved ->
  r.(BorrowRequest.approvedDate) = Some t -> t <> ""%string ->
  exists q a c,
    itemsOf r = [q; a; c]
    /\ q.(ActivityItem.type) = ActivityItem.request
    /\ q.(ActivityItem.id) = ("request_" ++ r.(BorrowRequest.id))%string
    /\ a.(ActivityItem.type) = ActivityItem.approval
    /\ a.(ActivityItem.id) = ("approval_" ++ r.(BorrowRequest.id))%string
    /\ a.(ActivityItem.timestamp) = t
    /\ c.(ActivityItem.type) = ActivityItem.checkout
    /\ c.(ActivityItem.id) = ("checkout_" ++ r.(BorrowRequest.id))%string
    /\ c.(ActivityItem.timestamp) = t.
Proof.
  intros Hst Hdate Ht. unfold itemsOf. rewrite Hst, Hdate. simpl.
  apply String.eqb_neq in Ht. rewrite Ht. simpl.
  do 3 eexists. split; [reflexivity|]. now repeat split.
Qed.

(** The items of a request carry its identifier behind the name of their
    kind, so a request with another identifier has no item of a given kind and
    identifier. *)
Lemma itemsOf_other (k : ActivityItem.kind) (prefix : string)
    (r q : BorrowRequest.t) :
  (forall a, In a (itemsOf q) -> a.(ActivityItem.type) = k ->
     a.(ActivityItem.id) = (prefix ++ q.(BorrowRequest.id))%string) ->
  q.(BorrowRequest.id) <> r.(BorrowRequest.id) ->
  count (isActivity k (prefix ++ r.(BorrowRequest.id))) (itemsOf q) = 0%nat.
Proof.
  intros Hid Hne. apply count_zero_iff. intros a Ha. unfold isActivity.
  destruct (ActivityFeed.kind_eqb a.(ActivityItem.type) k) eqn:Ek;
    [|reflexivity].
  apply kind_eqb_eq in Ek. rewrite (Hid a Ha Ek). simpl.
  apply String.eqb_neq. intros E. apply Hne.
  revert E. clear. induction prefix as [|c p IH]; simpl.
  - trivial.
  - intros [= E]. now apply IH.
Qed.

Lemma itemsOf_ids (q : BorrowRequest.t) (a : ActivityItem.t) :
  In a (itemsOf q) ->
  a.(ActivityItem.id)
  = ((match a.(ActivityItem.type) with
      | ActivityItem.request => "request_"
      | ActivityItem.approval => "approval_"
      | ActivityItem.checkout => "checkout_"
      | ActivityItem.return_ => "return_"
      | ActivityItem.rejection => "rejection_"
      end) ++ q.(BorrowRequest.id))%string.
Proof.
  unfold itemsOf. rewrite !in_app_iff.
  split_ifs; simpl; intuition (subst; reflexivity).
Qed.

Lemma count_items_unique (k : ActivityItem.kind) (prefix : string)
    (requests : list BorrowRequest.t) (r : BorrowRequest.t) :
  (forall q a, In a (itemsOf q) -> a.(ActivityItem.type) = k ->
     a.(ActivityItem.id) = (prefix ++ q.(BorrowRequest.id))%string) ->
  NoDup (map BorrowRequest.id requests) -> In r requests ->
  count (isActivity k (prefix ++ r.(BorrowRequest.id)))
        (sortedActivities requests)
  = count (isActivity k (prefix ++ r.(BorrowRequest.id))) (itemsOf r).
Proof.
  intros Hid Hnd Hin. unfold sortedActivities, activityItems.
  rewrite count_sort.
  apply (count_flat_map_unique BorrowRequest.id); [exact Hnd|exact Hin|].
  intros q Hq. apply itemsOf_other; [apply Hid|exact Hq].
Qed.

Lemma compareActivities_tie (a c : ActivityItem.t) :
  a.(ActivityItem.timestamp) = c.(ActivityItem.timestamp) ->
  JS.sortCompare compareActivities a c <= 0.
Proof.
  unfold JS.sortCompare, compareActivities. intros ->.
  destruct (parseDate c.(ActivityItem.timestamp)); simpl; lia.
Qed.

End ActivityFacts.

Section ActivityClaims.
Context `{DateApi}.

(** C3 (as amended).  An approved request [r] of the list with a present
    approval date [t] pushes exactly three items: one request item, one
    approval item and one checkout item, in that order, the last two with the
    timestamp [t].  All three are in the sorted feed, the feed before the
    filter and the cut.  When the timestamps of all synthesised items are
    dates, the approval item comes before the checkout item in the sorted
    feed.  When the identifiers of the requests are pairwise distinct, the
    sorted feed has exactly one item of each of the three kinds with the
    identifier that names [r].  With the filter [all] and a [maxItems] that
    covers the sorted feed, the sorted feed is the list [loadActivities]
    stores. *)
Theorem approved_request_activities (requests : list BorrowRequest.t)
    (r : BorrowRequest.t) (t : string) (maxItems : Z) :
  In r requests ->
  r.(BorrowRequest.status) = approved ->
  r.(BorrowRequest.approvedDate) = Some t -> t <> ""%string ->
  let feed := sortedActivities requests in
  let rid := r.(BorrowRequest.id) in
  exists q a c,
    itemsOf r = [q; a; c]
    /\ q.(ActivityItem.type) = ActivityItem.request
    /\ q.(ActivityItem.id) = ("request_" ++ rid)%string
    /\ a.(ActivityItem.type) = ActivityItem.approval
    /\ a.(ActivityItem.id) = ("approval_" ++ rid)%string
    /\ a.(ActivityItem.timestamp) = t
    /\ c.(ActivityItem.type) = ActivityItem.checkout
    /\ c.(ActivityItem.id) = ("checkout_" ++ rid)%string
    /\ c.(ActivityItem.timestamp) = t
    /\ In q feed /\ In a feed /\ In c feed
    /\ (Forall validActivity (activityItems requests) -> precedes a c feed)
    /\ (NoDup (map BorrowRequest.id requests) ->
        count (isActivity ActivityItem.request ("request_" ++ rid)%string) feed
        = 1%nat
        /\ count (isActivity ActivityItem.approval ("approval_" ++ rid)%string)
                 feed = 1%nat
        /\ count (isActivity ActivityItem.checkout ("checkout_" ++ rid)%string)
                 feed = 1%nat)
    /\ (Z.of_nat (List.length feed) <= maxItems ->
        deriveActivities Filter.all maxItems requests = feed).
Proof.
  intros Hin Hst Hdate Ht feed rid. subst rid.
  destruct (itemsOf_approved r t Hst Hdate Ht)
    as (q & a & c & Hitems & Hqt & Hqi & Hat & Hai & Hats & Hct & Hci & Hcts).
  exists q, a, c.
  assert (Hone : forall k i (x : ActivityItem.t),
             x.(ActivityItem.type) = k -> x.(ActivityItem.id) = i ->
             isActivity k i x = true).
  { intros k i x <- <-. unfold isActivity. rewrite String.eqb_refl.
    now destruct x.(ActivityItem.type). }
  assert (Hnone : forall k i (x : ActivityItem.t),
             x.(ActivityItem.type) <> k -> isActivity k i x = false).
  { intros k i x Hk. unfold isActivity.
    destruct (ActivityFeed.kind_eqb x.(ActivityItem.type) k) eqn:E;
      [|reflexivity].
    apply kind_eqb_eq in E. now elim Hk. }
  do 9 (split; [assumption|]).
  assert (Hfeed : forall x, In x [q; a; c] -> In x feed).
  { intros x Hx. apply sort_In. unfold activityItems. apply in_flat_map.
    exists r. split; [exact Hin|]. now rewrite Hitems. }
  split; [apply Hfeed; now left|].
  split; [apply Hfeed; right; now left|].
  split; [apply Hfeed; right; right; now left|].
  split; [|split].
  - intros _. apply sort_precedes; [|apply compareActivities_tie; congruence].
    apply in_split in Hin. destruct Hin as (l1 & l2 & ->).
    unfold activityItems. rewrite flat_map_app. cbn [flat_map].
    rewrite Hitems.
    exists (flat_map itemsOf l1 ++ [q]), [], (flat_map itemsOf l2).
    now rewrite <- app_assoc.
  - intros Hnd.
    assert (Hids : forall k p,
               (forall q0 a0, In a0 (itemsOf q0) ->
                  a0.(ActivityItem.type) = k ->
                  a0.(ActivityItem.id) = (p ++ q0.(BorrowRequest.id))%string) ->
               count (isActivity k (p ++ r.(BorrowRequest.id))%string) feed
               = count (isActivity k (p ++ r.(BorrowRequest.id))%string)
                       [q; a; c]).
    { intros k p Hp. rewrite <- Hitems. now apply count_items_unique. }
    split; [|split].
    + rewrite Hids.
      * rewrite !count_cons, (Hone _ _ q Hqt Hqi).
        rewrite (Hnone _ _ a), (Hnone _ _ c); [reflexivity| |]; congruence.
      * intros q0 a0 Ha0 Hk. rewrite (itemsOf_ids q0 a0 Ha0). now rewrite Hk.
    + rewrite Hids.
      * rewrite !count_cons, (Hone _ _ a Hat Hai).
        rewrite (Hnone _ _ q), (Hnone _ _ c); [reflexivity| |]; congruence.
      * intros q0 a0 Ha0 Hk. rewrite (itemsOf_ids q0 a0 Ha0). now rewrite Hk.
    + rewrite Hids.
      * rewrite !count_cons, (Hone _ _ c Hct Hci).
        rewrite (Hnone _ _ q), (Hnone _ _ a); [reflexivity| |]; congruence.
      * intros q0 a0 Ha0 Hk. rewrite (itemsOf_ids q0 a0 Ha0). now rewrite Hk.
  - intros Hlen. unfold deriveActivities. now apply slice0_all.
Qed.


End ActivityClaims.

(** ** Truncation and recomputation *)

Section Recomputation.
Context `{DateApi}.

(** C6.  For a [maxItems] that is not negative, the list [loadActivities]
    stores has at most [maxItems] items, 10 with the default, and the list of
    notifications has at most 20, whatever the requests; the activities are
    the first [maxItems] of the sorted and then filtered feed, the
    notifications the first 20 of the sorted synthesis.  The notification
    state never exceeds 20 either, after any sequence of events. *)
Theorem truncation_caps (f : Filter.t) (maxItems : Z)
    (requests : list BorrowRequest.t) (st : ActivityFeed.State)
    (u : User.t) (now : Z) (cu : option User.t) (es : list Event) :
  0 <= maxItems ->
  Z.of_nat (List.length (loadActivities f maxItems requests st).(activities))
  <= maxItems
  /\ (List.length
        (loadActivities f defaultMaxItems requests st).(activities)
      <= 10)%nat
  /\ (loadActivities f maxItems requests st).(activities)
     = firstn (Z.to_nat maxItems)
         (List.filter (matchesFilter f)
            (JS.sort compareActivities (activityItems requests)))
  /\ (List.length (deriveNotifications u now requests) <= 20)%nat
  /\ deriveNotifications u now requests
     = firstn 20
         (JS.sort compareNotifications (userNotifications u now requests))
  /\ (List.length (run cu es) <= 20)%nat.
Proof.
  intros Hmax. simpl. unfold deriveActivities.
  split; [|split; [|split; [|split; [|split]]]].
  - now apply slice0_length_le.
  - pose proof (slice0_length_le defaultMaxItems
                  (filteredActivities f requests)) as Hle.
    unfold defaultMaxItems in *. lia.
  - now rewrite slice0_nonneg, filteredActivities_filter.
  - apply deriveNotifications_length.
  - apply deriveNotifications_firstn.
  - apply (run_invariant cu (fun st => (List.length st <= 20)%nat)).
    + simpl. lia.
    + intros st0 e. apply step_length.
Qed.

(** C8.  Running [loadActivities] a second time on the same requests, filter
    and [maxItems] leaves the state it produced, and the state it produces
    does not depend on the one it starts from; the same holds of
    [loadNotifications] for the same user, requests and [now], also when
    notifications were marked read in between. *)
Theorem derivation_idempotent (f : Filter.t) (maxItems : Z)
    (requests : list BorrowRequest.t) (st st' : ActivityFeed.State)
    (cu : option User.t) (u : User.t) (now : Z)
    (prev prev' : list Notification.t) (i : string) :
  loadActivities f maxItems requests (loadActivities f maxItems requests st)
  = loadActivities f maxItems requests st
  /\ loadActivities f maxItems requests st
     = loadActivities f maxItems requests st'
  /\ loadNotifications cu now requests
       (loadNotifications cu now requests prev)
     = loadNotifications cu now requests prev
  /\ loadNotifications (Some u) now requests prev
     = loadNotifications (Some u) now requests prev'
  /\ loadNotifications (Some u) now requests
       (markAsRead i (loadNotifications (Some u) now requests prev))
     = loadNotifications (Some u) now requests prev
  /\ loadNotifications (Some u) now requests
       (markAllAsRead (loadNotifications (Some u) now requests prev))
     = loadNotifications (Some u) now requests prev.
Proof.
  repeat split.
  apply (loadNotifications_idempotent cu now requests prev prev' u).
Qed.

End Recomputation.

(** ** The derivations on the sample requests *)

Import Sample.

Example parse_date_time :
  IsoDate.parse "2024-01-01T10:00:00Z" = Some 1704103200000.
Proof. vm_compute. reflexivity. Qed.

Example parse_date_only : IsoDate.parse "2024-01-05" = Some 1704412800000.
Proof. vm_compute. reflexivity. Qed.

Example parse_not_a_date : IsoDate.parse "next week" = None.
Proof. vm_compute. reflexivity. Qed.

Example print_now : IsoDate.print now = "2024-01-05T10:07:00.000Z".
Proof. vm_compute. reflexivity. Qed.

Example parse_print_leap_day :
  IsoDate.parse (IsoDate.print 951782400123) = Some 951782400123.
Proof. vm_compute. reflexivity. Qed.

(** First scenario of the specification: the pending request yields one
    activity item, the submission. *)
Example pending_request_feed :
  map (fun a => (a.(ActivityItem.type), a.(ActivityItem.title),
                 a.(ActivityItem.timestamp)))
      (deriveActivities Filter.all defaultMaxItems [r1])
  = [(ActivityItem.request, "Component Request Submitted",
      "2024-01-01T10:00:00Z")].
Proof. vm_compute. reflexivity. Qed.

(** Second scenario: once approved the request has three items; the filter
    [requests] keeps the submission, [approvals] the approval and the
    checkout. *)
Example approved_request_feed :
  map ActivityItem.id
      (deriveActivities Filter.all defaultMaxItems [r1Approved "2024-01-09"])
  = ["approval_r1"; "checkout_r1"; "request_r1"]
  /\ map ActivityItem.id
       (deriveActivities Filter.requests defaultMaxItems
          [r1Approved "2024-01-09"])
     = ["request_r1"]
  /\ map ActivityItem.id
       (deriveActivities Filter.approvals defaultMaxItems
          [r1Approved "2024-01-09"])
     = ["approval_r1"; "checkout_r1"].
Proof. vm_compute. repeat split. Qed.

(** Third scenario: a request due 2024-01-01, looked at on 2024-01-05 by an
    administrator, yields an overdue reminder of priority high. *)
Example overdue_scenario :
  map (fun n => (n.(Notification.id), n.(Notification.type),
                 n.(Notification.priority)))
      (deriveNotifications root now [r1Approved "2024-01-01"])
  = [("overdue_r1", Notification.reminder, high)].
Proof. vm_compute. reflexivity. Qed.

(** Fourth scenario: a rejected request of the student yields one rejection
    notification of priority medium that refers to the request. *)
Example rejection_scenario :
  map (fun n => (n.(Notification.id), n.(Notification.type),
                 n.(Notification.requestId), n.(Notification.priority)))
      (deriveNotifications alice now [r2])
  = [("rejected_r2", Notification.rejection, Some "r2", medium)].
Proof. vm_compute. reflexivity. Qed.

(** A negative [maxItems] does not cap the list: [slice] then drops items from
    the end. *)
Example negative_maxItems :
  List.length (deriveActivities Filter.all (-1) [r1Approved "2024-01-09"])
  = 2%nat.
Proof. vm_compute. reflexivity. Qed.

(** C1, counterexample.  The administrator sees the pending request [r1],
    clicks its notification, and the next tick synthesises the identifier
    [pending_r1] again: the notification is unread in the new list. *)
Lemma read_state_lost_on_tick :
  ~ ReadStatePreserved root now [r1]
      (markAsRead "pending_r1" (loadNotifications (Some root) now [r1] [])).
Proof.
  intros Hkeep.
  assert (E : (pendingNotification r1).(Notification.read) = true).
  { apply (Hkeep "pending_r1").
    - exists (setRead (pendingNotification r1)).
      split; [left; reflexivity|split; reflexivity].
    - exists (pendingNotification r1).
      split; [left; reflexivity|reflexivity].
    - left. reflexivity.
    - reflexivity. }
  discriminate E.
Qed.


(** C3, counterexample.  Four approved requests with approval dates yield
    twelve items, all with timestamps that are dates; with the filter [all]
    and the default [maxItems] the list stored holds the first ten, and the
    request item of the fourth request is not among them. *)
Lemma approved_request_cut_by_cap :
  ~ ApprovedRequestShown Filter.all defaultMaxItems
      [approvedRequest "ra" "2024-01-09"; approvedRequest "rb" "2024-01-09";
       approvedRequest "rc" "2024-01-09"; approvedRequest "rd" "2024-01-09"]
      (approvedRequest "rd" "2024-01-09").
Proof.
  intros (Hreq & _). vm_compute in Hreq. discriminate Hreq.
Qed.

(** C4, counterexample.  Two pending requests whose request dates are not
    dates, an empty string and the word "unknown": the comparator returns
    [NaN] for them, the sort leaves the two as they are, and the two
    notifications, of the same rank, are neighbours although no timestamp is
    [>=] the other. *)
Lemma undated_requests_not_ordered :
  ~ NotificationsOrdered root now
      [pendingRequest "r3" ""; pendingRequest "r4" "unknown"].
Proof.
  intros Hord.
  assert (Hxy : inOrder (pendingNotification (pendingRequest "r3" ""))
                        (pendingNotification (pendingRequest "r4" "unknown"))).
  { apply Hord. exists [], []. reflexivity. }
  destruct Hxy as [Hgt|[_ Hge]].
  - vm_compute in Hgt. discriminate Hgt.
  - vm_compute in Hge. discriminate Hge.
Qed.

(** *** Instances of the theorems that have hypotheses *)

Lemma loadNotifications_replaces_list_witness :
  In (pendingNotification r1)
     (loadNotifications (Some root) now [r1]
        (markAsRead "pending_r1" [setRead (pendingNotification r1)]))
  /\ (pendingNotification r1).(Notification.read) = false.
Proof.
  split; [left; reflexivity|].
  apply (proj1 (proj2 (loadNotifications_replaces_list root now [r1]
                         (markAsRead "pending_r1"
                            [setRead (pendingNotification r1)])))).
  left. reflexivity.
Defined.


Lemma approved_request_activities_witness :
  In (r1Approved "2024-01-09") [r1Approved "2024-01-09"; r2]
  /\ (r1Approved "2024-01-09").(BorrowRequest.status) = approved
  /\ (r1Approved "2024-01-09").(BorrowRequest.approvedDate)
     = Some "2024-01-02T09:00:00Z"
  /\ "2024-01-02T09:00:00Z" <> ""%string
  /\ Forall validActivity (activityItems [r1Approved "2024-01-09"; r2])
  /\ exists a c,
       precedes a c (sortedActivities [r1Approved "2024-01-09"; r2])
       /\ a.(ActivityItem.id) = "approval_r1"%string
       /\ c.(ActivityItem.id) = "checkout_r1"%string.
Proof.
  assert (Hin : In (r1Approved "2024-01-09") [r1Approved "2024-01-09"; r2])
    by (left; reflexivity).
  assert (Ht : "2024-01-02T09:00:00Z" <> ""%string) by discriminate.
  assert (Hvalid : Forall validActivity
                     (activityItems [r1Approved "2024-01-09"; r2])).
  { repeat constructor; unfold validActivity; vm_compute; discriminate. }
  repeat split; [exact Hin|exact Ht|exact Hvalid|].
  destruct (approved_request_activities [r1Approved "2024-01-09"; r2]
              (r1Approved "2024-01-09") "2024-01-02T09:00:00Z" 10
              Hin eq_refl eq_refl Ht)
    as (q & a & c & _ & _ & _ & _ & Ha & _ & _ & Hc & _ & _ & _ & _ & Hp & _).
  exists a, c. repeat split; [exact (Hp Hvalid)|exact Ha|exact Hc].
Defined.

Lemma notifications_ordered_witness :
  Forall validTimestamp
    (userNotifications root now [r1; approvedRequest "r3" "2024-01-01"])
  /\ adjacent (pendingNotification r1)
       (overdueNotification (approvedRequest "r3" "2024-01-01"))
       (deriveNotifications root now [r1; approvedRequest "r3" "2024-01-01"])
  /\ (priorityRank (pendingNotification r1)
      > priorityRank (overdueNotification (approvedRequest "r3" "2024-01-01"))
      \/ (priorityRank (pendingNotification r1)
          = priorityRank
              (overdueNotification (approvedRequest "r3" "2024-01-01"))
          /\ JS.ge (parseDate "2024-01-01T10:00:00Z") (parseDate "2024-01-01")
             = true)).
Proof.
  assert (Hvalid : Forall validTimestamp
            (userNotifications root now
               [r1; approvedRequest "r3" "2024-01-01"])).
  { repeat constructor; unfold validTimestamp; vm_compute; discriminate. }
  assert (Hadj : adjacent (pendingNotification r1)
            (overdueNotification (approvedRequest "r3" "2024-01-01"))
            (deriveNotifications root now
               [r1; approvedRequest "r3" "2024-01-01"])).
  { exists [], []. reflexivity. }
  split; [exact Hvalid|]. split; [exact Hadj|].
  exact (proj1 (notifications_ordered root now
                  [r1; approvedRequest "r3" "2024-01-01"] _ _ Hvalid Hadj)).
Defined.


Lemma truncation_caps_witness :
  0 <= 2
  /\ Z.of_nat
       (List.length
          (loadActivities Filter.all 2 [r1Approved "2024-01-09"; r2]
             initialState).(activities)) <= 2.
Proof.
  assert (Hmax : 0 <= 2) by discriminate.
  split; [exact Hmax|].
  exact (proj1 (truncation_caps Filter.all 2 [r1Approved "2024-01-09"; r2]
                  initialState root now (Some root) [] Hmax)).
Defined.

Lemma markAsRead_markAllAsRead_spec_witness :
  (forall n, In n [pendingNotification r1] ->
     n.(Notification.id) <> "overdue_r1"%string)
  /\ markAsRead "overdue_r1" [pendingNotification r1]
     = [pendingNotification r1].
Proof.
  assert (Habs : forall n, In n [pendingNotification r1] ->
                   n.(Notification.id) <> "overdue_r1"%string).
  { intros n [<-|[]]. discriminate. }
  split; [exact Habs|].
  exact (proj1 (proj2 (proj2 (markAsRead_markAllAsRead_spec "overdue_r1"
                                [pendingNotification r1]))) Habs).
Defined.

Lemma read_operations_frame_witness :
  nth_error [pendingNotification r1] 0 = Some (pendingNotification r1)
  /\ exists m, nth_error (markAllAsRead [pendingNotification r1]) 0 = Some m
               /\ sameButRead (pendingNotification r1) m.
Proof.
  split; [reflexivity|].
  exact (proj2 (proj2 (proj2 (read_operations_frame "pending_r1"
                                [pendingNotification r1])))
           0%nat (pendingNotification r1) eq_refl).
Defined.

(** * Further properties of the components *)

(** ** How the read-state operations compose *)

Lemma setRead_id (n : Notification.t) :
  (setRead n).(Notification.id) = n.(Notification.id).
Proof. reflexivity. Qed.

Lemma setRead_of_read (n : Notification.t) :
  n.(Notification.read) = true -> setRead n = n.
Proof. destruct n as [i k t m ts r q p]. simpl. now intros ->. Qed.

(** X1.  Marking the same notification twice is marking it once, marks of two
    notifications can be swapped, and "Mark all read" absorbs a single mark,
    before or after it. *)
Theorem read_operations_compose (i j : string) (l : list Notification.t) :
  markAsRead i (markAsRead i l) = markAsRead i l
  /\ markAsRead i (markAsRead j l) = markAsRead j (markAsRead i l)
  /\ markAllAsRead (markAsRead i l) = markAllAsRead l
  /\ markAsRead i (markAllAsRead l) = markAllAsRead l
  /\ markAllAsRead (markAllAsRead l) = markAllAsRead l.
Proof.
  unfold markAsRead, markAllAsRead. rewrite !map_map.
  split; [|split; [|split; [|split]]]; apply map_ext; intros n.
  - destruct (String.eqb_spec n.(Notification.id) i) as [E|NE].
    + rewrite setRead_id. apply String.eqb_eq in E. now rewrite E.
    + apply String.eqb_neq in NE. now rewrite NE.
  - destruct (n.(Notification.id) =? j)%string eqn:Ej;
      destruct (n.(Notification.id) =? i)%string eqn:Ei;
      rewrite ?setRead_id, ?Ej, ?Ei; reflexivity.
  - now destruct (n.(Notification.id) =? i)%string.
  - rewrite setRead_id. now destruct (n.(Notification.id) =? i)%string.
  - reflexivity.
Qed.

Lemma unreadCount_cons (n : Notification.t) (l : list Notification.t) :
  unreadCount (n :: l)
  = ((if n.(Notification.read) then 0 else 1) + unreadCount l)%nat.
Proof. unfold unreadCount. simpl. now destruct n.(Notification.read). Qed.

Lemma unreadCount_le_length (l : list Notification.t) :
  (unreadCount l <= List.length l)%nat.
Proof. unfold unreadCount. apply filter_length_le. Qed.

Lemma markAsRead_cons (i : string) (n : Notification.t)
    (l : list Notification.t) :
  markAsRead i (n :: l)
  = (if (n.(Notification.id) =? i)%string then setRead n else n)
    :: markAsRead i l.
Proof. reflexivity. Qed.

(** A click takes off the unread count the unread notifications that carry the
    identifier clicked. *)
Lemma unreadCount_markAsRead (i : string) (l : list Notification.t) :
  (unreadCount (markAsRead i l) + count (isUnread i) l)%nat = unreadCount l.
Proof.
  induction l as [|n l IH]; [reflexivity|].
  rewrite markAsRead_cons, count_cons, !unreadCount_cons. unfold isUnread at 1.
  destruct (n.(Notification.id) =? i)%string; simpl;
    destruct n.(Notification.read); simpl; lia.
Qed.

Lemma count_isUnread_absent (i : string) (l : list Notification.t) :
  ~ In i (map Notification.id l) -> count (isUnread i) l = 0%nat.
Proof.
  intros Hnot. apply count_zero_iff. intros n Hn. unfold isUnread.
  destruct (String.eqb_spec n.(Notification.id) i) as [E|_].
  - elim Hnot. rewrite <- E. now apply in_map.
  - apply andb_false_r.
Qed.

(** X2.  In a list whose identifiers are pairwise distinct, a click on an
    unread notification lowers the unread count by exactly one, and a click on
    a notification that is already read, or on an identifier that is not in
    the list, leaves the list as it is. *)
Theorem click_lowers_unread_by_one (i : string) (l : list Notification.t)
    (n : Notification.t) :
  NoDup (map Notification.id l) ->
  In n l -> n.(Notification.id) = i ->
  (n.(Notification.read) = false ->
   (unreadCount (markAsRead i l) + 1)%nat = unreadCount l)
  /\ (n.(Notification.read) = true -> markAsRead i l = l).
Proof.
  intros Hnd Hin Hid.
  assert (Hcount : count (isUnread i) l
                   = if n.(Notification.read) then 0%nat else 1%nat).
  { clear - Hnd Hin Hid. induction l as [|m l IH]; [destruct Hin|].
    simpl in Hnd. apply NoDup_cons_iff in Hnd. destruct Hnd as [Hnot Hnd].
    rewrite count_cons. destruct Hin as [->|Hin].
    - rewrite count_isUnread_absent by now rewrite <- Hid.
      unfold isUnread. apply String.eqb_eq in Hid. rewrite Hid.
      now destruct n.(Notification.read).
    - rewrite (IH Hnd Hin). unfold isUnread.
      destruct (String.eqb_spec m.(Notification.id) i) as [E|_].
      + elim Hnot. rewrite E, <- Hid. now apply in_map.
      + now rewrite andb_false_r. }
  split.
  - intros Hunread. rewrite Hunread in Hcount.
    rewrite <- (unreadCount_markAsRead i l), Hcount. reflexivity.
  - intros Hread. rewrite Hread in Hcount.
    clear - Hcount. induction l as [|m l IH]; [reflexivity|].
    rewrite count_cons in Hcount. rewrite markAsRead_cons.
    assert (Hm : isUnread i m = false) by (destruct (isUnread i m); [discriminate|reflexivity]).
    rewrite Hm in Hcount. rewrite IH by exact Hcount. f_equal.
    unfold isUnread in Hm.
    destruct (m.(Notification.id) =? i)%string; [|reflexivity].
    rewrite andb_true_r in Hm. apply negb_false_iff in Hm.
    now apply setRead_of_read.
Qed.

(** ** The unread count and what the panel shows of it *)

Lemma unreadCount_all_unread (l : list Notification.t) :
  (forall n, In n l -> n.(Notification.read) = false) ->
  unreadCount l = List.length l.
Proof.
  intros Hall. induction l as [|n l IH]; [reflexivity|].
  rewrite unreadCount_cons, (Hall n (or_introl eq_refl)). simpl. f_equal.
  apply IH. intros m Hm. apply Hall. now right.
Qed.

Lemma bellBadge_below_100 (c : nat) :
  (c <= 99)%nat ->
  bellBadge c = if (c =? 0)%nat then None else Some (JS.showZ (Z.of_nat c)).
Proof.
  intros Hc. unfold bellBadge. destruct c as [|c]; [reflexivity|].
  replace (0 <? Z.of_nat (S c)) with true by (symmetry; apply Z.ltb_lt; lia).
  replace (99 <? Z.of_nat (S c)) with false by (symmetry; apply Z.ltb_ge; lia).
  reflexivity.
Qed.

Section UnreadCount.
Context `{DateApi}.

(** X3.  After a tick with a current user every notification of the list
    counts as unread: the unread count is the length of the list, at most 20,
    and the panel offers "Mark all read" as soon as the list is not empty. *)
Theorem tick_counts_all_unread (u : User.t) (now : Z)
    (requests : list BorrowRequest.t) (prev : list Notification.t) :
  let next := loadNotifications (Some u) now requests prev in
  unreadCount next = List.length next
  /\ (unreadCount next <= 20)%nat
  /\ offersMarkAllRead (unreadCount next) = negb (Nat.eqb (List.length next) 0).
Proof.
  simpl.
  assert (E : unreadCount (deriveNotifications u now requests)
              = List.length (deriveNotifications u now requests)).
  { apply unreadCount_all_unread. intros n Hn.
    apply deriveNotifications_In in Hn.
    now apply userNotifications_unread in Hn. }
  rewrite E. split; [reflexivity|]. split.
  - apply deriveNotifications_length.
  - unfold offersMarkAllRead.
    now destruct (List.length (deriveNotifications u now requests)).
Qed.

(** X4.  Whatever the sequence of ticks and clicks, the unread count stays
    within 20, so the bell never shows ["99+"]: it shows nothing when no
    notification is unread, and the count itself otherwise. *)
Theorem bell_never_shows_99_plus (cu : option User.t) (es : list Event) :
  let unread := unreadCount (run cu es) in
  (unread <= 20)%nat
  /\ (99 <? Z.of_nat unread) = false
  /\ bellBadge unread
     = if (unread =? 0)%nat then None else Some (JS.showZ (Z.of_nat unread)).
Proof.
  simpl.
  assert (Hlen : (List.length (run cu es) <= 20)%nat).
  { apply (run_invariant cu (fun st => (List.length st <= 20)%nat)).
    - simpl. lia.
    - intros st e. apply step_length. }
  pose proof (unreadCount_le_length (run cu es)) as Hle.
  split; [lia|]. split.
  - apply Z.ltb_ge. lia.
  - apply bellBadge_below_100. lia.
Qed.

End UnreadCount.

(** X5.  After "Mark all read" no notification is unread, whatever the list
    was: the bell shows no badge, the panel says "All caught up!" and does not
    offer "Mark all read" again. *)
Theorem mark_all_read_clears_the_panel (l : list Notification.t) :
  let unread := unreadCount (markAllAsRead l) in
  unread = 0%nat
  /\ bellBadge unread = None
  /\ panelSubtitle unread = "All caught up!"%string
  /\ offersMarkAllRead unread = false.
Proof.
  simpl. rewrite unreadCount_markAllAsRead. now repeat split.
Qed.

(** ** The rules of the student view *)

Section StudentRules.
Context `{DateApi}.

Lemma daysDiff_value (now due : Z) (o : option string) :
  dateOf o = Some due ->
  daysDiff now o = Some (- ((now - due) / msPerDay)).
Proof.
  intros E. unfold daysDiff. rewrite E. simpl. do 3 f_equal. lia.
Qed.

(** The whole-day difference lies in 0..2 exactly when the due date is later
    than 24 hours ago and at most 48 hours ahead; it is 0 exactly when the due
    date is later than 24 hours ago and not after [now]. *)
Lemma daysDiff_window (now due : Z) (o : option string) :
  dateOf o = Some due ->
  (JS.le (daysDiff now o) (Some 2) && JS.ge (daysDiff now o) (Some 0) = true
   <-> now - msPerDay < due <= now + 2 * msPerDay)
  /\ (JS.eqk (daysDiff now o) 0 = true <-> now - msPerDay < due <= now).
Proof.
  intros E. rewrite (daysDiff_value now due o E). unfold msPerDay. simpl.
  pose proof (Z.div_mod (now - due) 86400000 ltac:(lia)) as Hdm.
  pose proof (Z.mod_pos_bound (now - due) 86400000 ltac:(lia)) as Hmod.
  rewrite andb_true_iff, !Z.leb_le, Z.eqb_eq. split; lia.
Qed.

Lemma studentNotificationsOf_In (now : Z) (r : BorrowRequest.t)
    (n : Notification.t) :
  In n (studentNotificationsOf now r)
  <-> (n = approvedNotification r
       /\ r.(BorrowRequest.status) = approved
       /\ JS.truthy r.(BorrowRequest.approvedDate) = true)
      \/ (n = rejectedNotification r /\ r.(BorrowRequest.status) = rejected)
      \/ (n = reminderNotification now r
          /\ r.(BorrowRequest.status) = approved
          /\ JS.le (daysDiff now r.(BorrowRequest.dueDate)) (Some 2)
             && JS.ge (daysDiff now r.(BorrowRequest.dueDate)) (Some 0)
             = true).
Proof.
  unfold studentNotificationsOf. rewrite !in_app_iff. cbv zeta.
  set (w := JS.le _ _ && JS.ge _ _).
  destruct r.(BorrowRequest.status),
    (JS.truthy r.(BorrowRequest.approvedDate)), w; simpl;
    intuition (try discriminate; try congruence).
Qed.

(** X6.  The return reminder of an approved request with a readable due date
    is issued exactly when the due date is later than 24 hours before [now]
    and at most 48 hours after it; it is of priority high, "due today",
    exactly when the due date is not after [now], and medium otherwise.  A
    due date up to 24 hours in the past is still "due today". *)
Theorem student_reminder_window (now due : Z) (r : BorrowRequest.t) :
  r.(BorrowRequest.status) = approved ->
  dateOf r.(BorrowRequest.dueDate) = Some due ->
  (In (reminderNotification now r) (studentNotificationsOf now r)
   <-> now - msPerDay < due <= now + 2 * msPerDay)
  /\ (forall n, In n (studentNotificationsOf now r) ->
        n.(Notification.type) = Notification.reminder ->
        n = reminderNotification now r)
  /\ ((reminderNotification now r).(Notification.priority) = high
      <-> now - msPerDay < due <= now)
  /\ ((reminderNotification now r).(Notification.priority) = medium
      <-> ~ now - msPerDay < due <= now).
Proof.
  intros Hst Hdue.
  destruct (daysDiff_window now due _ Hdue) as [Hwin Hzero].
  split; [|split; [|split]].
  - rewrite studentNotificationsOf_In, <- Hwin. split.
    + intros [(E & _)|[(_ & E)|(_ & _ & E)]];
        [discriminate E|congruence|exact E].
    + intros E. right. right. now repeat split.
  - intros n Hn Hk. apply studentNotificationsOf_In in Hn.
    destruct Hn as [(-> & _)|[(-> & _)|(-> & _)]];
      [discriminate Hk|discriminate Hk|reflexivity].
  - rewrite <- Hzero. unfold reminderNotification. simpl.
    destruct (JS.eqk _ 0); split; congruence.
  - rewrite <- Hzero. unfold reminderNotification. simpl.
    destruct (JS.eqk _ 0); split; congruence.
Qed.

(** X7.  No return reminder without a readable due date or without the status
    approved: a request whose due date is missing or is not a date, and a
    request of any other status, yields no reminder for the student. *)
Theorem student_reminder_needs_due_date (now : Z) (r : BorrowRequest.t)
    (n : Notification.t) :
  dateOf r.(BorrowRequest.dueDate) = None
  \/ r.(BorrowRequest.status) <> approved ->
  In n (studentNotificationsOf now r) ->
  n.(Notification.type) <> Notification.reminder.
Proof.
  intros Hno Hn Hk. apply studentNotificationsOf_In in Hn.
  destruct Hn as [(-> & _)|[(-> & _)|(-> & Hst & Hwin)]];
    [discriminate Hk|discriminate Hk|].
  destruct Hno as [Hnone|Hnst]; [|now elim Hnst].
  unfold daysDiff in Hwin. rewrite Hnone in Hwin. discriminate Hwin.
Qed.

(** X8.  The student view is made of the student's own requests only: every
    notification is linked to a request of the list whose student is the
    current user and whose status is approved or rejected, and its kind is
    approval, rejection or reminder; pending, returned and overdue requests
    yield nothing. *)
Theorem student_sees_own_requests (u : User.t) (now : Z)
    (requests : list BorrowRequest.t) (n : Notification.t) :
  In n (studentNotifications u now requests) ->
  exists r,
    In r requests
    /\ r.(BorrowRequest.studentId) = u.(User.id)
    /\ n.(Notification.requestId) = Some r.(BorrowRequest.id)
    /\ ((r.(BorrowRequest.status) = approved
         /\ (n.(Notification.type) = Notification.approval
             \/ n.(Notification.type) = Notification.reminder))
        \/ (r.(BorrowRequest.status) = rejected
            /\ n.(Notification.type) = Notification.rejection)).
Proof.
  unfold studentNotifications. rewrite in_flat_map.
  intros (r & Hr & Hn). apply filter_In in Hr. destruct Hr as [Hr Hown].
  apply String.eqb_eq in Hown. exists r.
  apply studentNotificationsOf_In in Hn.
  destruct Hn as [(-> & Hst & _)|[(-> & Hst)|(-> & Hst & _)]];
    repeat split; auto.
Qed.

End StudentRules.

(** ** The rules of the admin view *)

Section AdminRules.
Context `{DateApi}.

Lemma isRecentCheckout_iff (now : Z) (r : BorrowRequest.t) :
  isRecentCheckout now r = true
  <-> r.(BorrowRequest.status) = approved
      /\ exists s t, r.(BorrowRequest.approvedDate) = Some s
                     /\ s <> ""%string /\ parseDate s = Some t
                     /\ yesterday now < t.
Proof.
  unfold isRecentCheckout, JS.gt, JS.lt, JS.truthy, dateOf.
  destruct r.(BorrowRequest.status); simpl;
    try (split; [discriminate|intros [[=] _]]).
  destruct r.(BorrowRequest.approvedDate) as [s|]; simpl.
  - destruct (String.eqb_spec s "") as [->|Hs]; simpl.
    + split; [discriminate|]. intros (_ & s & t & [= <-] & Hne & _).
      now elim Hne.
    + destruct (parseDate s) as [t|] eqn:Ep.
      * rewrite Z.ltb_lt. split.
        -- intros Hlt. split; [reflexivity|]. now exists s, t.
        -- intros (_ & s' & t' & [= <-] & _ & Et & Hlt).
           rewrite Ep in Et. injection Et as <-. exact Hlt.
      * split; [discriminate|].
        intros (_ & s' & t' & [= <-] & _ & Et & _). congruence.
  - split; [discriminate|]. intros (_ & s & t & [=] & _).
Qed.

Lemma isRecentReturn_iff (now : Z) (r : BorrowRequest.t) :
  isRecentReturn now r = true
  <-> r.(BorrowRequest.status) = returned
      /\ exists s t, r.(BorrowRequest.returnedDate) = Some s
                     /\ s <> ""%string /\ parseDate s = Some t
                     /\ yesterday now < t.
Proof.
  unfold isRecentReturn, JS.gt, JS.lt, JS.truthy, dateOf.
  destruct r.(BorrowRequest.status); simpl;
    try (split; [discriminate|intros [[=] _]]).
  destruct r.(BorrowRequest.returnedDate) as [s|]; simpl.
  - destruct (String.eqb_spec s "") as [->|Hs]; simpl.
    + split; [discriminate|]. intros (_ & s & t & [= <-] & Hne & _).
      now elim Hne.
    + destruct (parseDate s) as [t|] eqn:Ep.
      * rewrite Z.ltb_lt. split.
        -- intros Hlt. split; [reflexivity|]. now exists s, t.
        -- intros (_ & s' & t' & [= <-] & _ & Et & Hlt).
           rewrite Ep in Et. injection Et as <-. exact Hlt.
      * split; [discriminate|].
        intros (_ & s' & t' & [= <-] & _ & Et & _). congruence.
  - split; [discriminate|]. intros (_ & s & t & [=] & _).
Qed.

Lemma isPending_iff (r : BorrowRequest.t) :
  isPending r = true <-> r.(BorrowRequest.status) = pending.
Proof.
  unfold isPending. destruct r.(BorrowRequest.status); simpl;
    split; congruence.
Qed.

Lemma isOverdue_approved (now : Z) (r : BorrowRequest.t) :
  isOverdue now r = true -> r.(BorrowRequest.status) = approved.
Proof.
  unfold isOverdue. now destruct r.(BorrowRequest.status).
Qed.

Lemma adminNotifications_In (now : Z) (requests : list BorrowRequest.t)
    (n : Notification.t) :
  In n (adminNotifications now requests)
  <-> exists r, In r requests
        /\ ((n = pendingNotification r /\ isPending r = true)
            \/ (n = overdueNotification r /\ isOverdue now r = true)
            \/ (n = checkoutNotification r /\ isRecentCheckout now r = true)
            \/ (n = returnNotification r /\ isRecentReturn now r = true)).
Proof.
  unfold adminNotifications. rewrite !in_app_iff, !in_map_iff.
  setoid_rewrite filter_In. split.
  - intros [(r & <- & Hr & Hp)|[(r & <- & Hr & Hp)|[(r & <- & Hr & Hp)
           |(r & <- & Hr & Hp)]]]; exists r; (split; [exact Hr|]).
    + left. now split.
    + right. left. now split.
    + right. right. left. now split.
    + right. right. right. now split.
  - intros (r & Hr & [(-> & Hp)|[(-> & Hp)|[(-> & Hp)|(-> & Hp)]]]).
    + left. now exists r.
    + right. left. now exists r.
    + right. right. left. now exists r.
    + right. right. right. now exists r.
Qed.

(** X9.  Where an admin notification comes from: each one is linked to a
    request of the list that is pending (an approval notice of priority
    high), approved and past its due date (a reminder), approved later than
    [yesterday now], the same local clock time one calendar day before [now]
    (a checkout notice of priority medium), or returned later than
    [yesterday now] (a return notice of priority medium).  A request that is
    rejected, or whose status is overdue, yields nothing. *)
Theorem admin_notification_origin (now : Z)
    (requests : list BorrowRequest.t) (n : Notification.t) :
  In n (adminNotifications now requests) ->
  exists r,
    In r requests
    /\ n.(Notification.requestId) = Some r.(BorrowRequest.id)
    /\ r.(BorrowRequest.status) <> rejected
    /\ r.(BorrowRequest.status) <> overdue
    /\ ((n.(Notification.type) = Notification.approval
         /\ n.(Notification.priority) = high
         /\ r.(BorrowRequest.status) = pending)
        \/ (n.(Notification.type) = Notification.reminder
            /\ n.(Notification.priority) = high
            /\ r.(BorrowRequest.status) = approved)
        \/ (n.(Notification.type) = Notification.checkout
            /\ n.(Notification.priority) = medium
            /\ r.(BorrowRequest.status) = approved
            /\ exists t, dateOf r.(BorrowRequest.approvedDate) = Some t
                         /\ yesterday now < t)
        \/ (n.(Notification.type) = Notification.return_
            /\ n.(Notification.priority) = medium
            /\ r.(BorrowRequest.status) = returned
            /\ exists t, dateOf r.(BorrowRequest.returnedDate) = Some t
                         /\ yesterday now < t)).
Proof.
  intros Hn. apply adminNotifications_In in Hn.
  destruct Hn as (r & Hr & [(-> & Hp)|[(-> & Hp)|[(-> & Hp)|(-> & Hp)]]]);
    exists r; (split; [exact Hr|]); (split; [reflexivity|]).
  - apply isPending_iff in Hp. rewrite Hp.
    repeat split; try discriminate. left. now repeat split.
  - apply isOverdue_approved in Hp. rewrite Hp.
    repeat split; try discriminate. right. left. now repeat split.
  - apply isRecentCheckout_iff in Hp.
    destruct Hp as (Hst & s & t & Hs & _ & Ht & Hlt). rewrite Hst.
    repeat split; try discriminate. right. right. left.
    repeat split. exists t. unfold dateOf. rewrite Hs. now split.
  - apply isRecentReturn_iff in Hp.
    destruct Hp as (Hst & s & t & Hs & _ & Ht & Hlt). rewrite Hst.
    repeat split; try discriminate. right. right. right.
    repeat split. exists t. unfold dateOf. rewrite Hs. now split.
Qed.

(** X10.  What the admin synthesis holds for a request [r] of the list: the
    approval notice [pending_<id>] when [r] is pending; the checkout notice
    [checkout_<id>], stamped with the approval date, when [r] is approved and
    its approval date is a date later than [yesterday now], the same local
    clock time one calendar day before [now]; the return notice
    [return_<id>], stamped with the return date, when [r] is returned and its
    return date is a date later than [yesterday now]. *)
Theorem admin_rules_complete (now : Z) (requests : list BorrowRequest.t)
    (r : BorrowRequest.t) (s : string) (t : Z) :
  In r requests ->
  (r.(BorrowRequest.status) = pending ->
   In (pendingNotification r) (adminNotifications now requests))
  /\ (r.(BorrowRequest.status) = approved ->
      r.(BorrowRequest.approvedDate) = Some s -> s <> ""%string ->
      parseDate s = Some t -> yesterday now < t ->
      In (checkoutNotification r) (adminNotifications now requests)
      /\ (checkoutNotification r).(Notification.timestamp) = s)
  /\ (r.(BorrowRequest.status) = returned ->
      r.(BorrowRequest.returnedDate) = Some s -> s <> ""%string ->
      parseDate s = Some t -> yesterday now < t ->
      In (returnNotification r) (adminNotifications now requests)
      /\ (returnNotification r).(Notification.timestamp) = s).
Proof.
  intros Hr. split; [|split].
  - intros Hst. apply adminNotifications_In. exists r. split; [exact Hr|].
    left. split; [reflexivity|]. now apply isPending_iff.
  - intros Hst Hs Hne Ht Hlt. split.
    + apply adminNotifications_In. exists r. split; [exact Hr|].
      right. right. left. split; [reflexivity|].
      apply isRecentCheckout_iff. split; [exact Hst|]. now exists s, t.
    + unfold checkoutNotification. simpl. now rewrite Hs.
  - intros Hst Hs Hne Ht Hlt. split.
    + apply adminNotifications_In. exists r. split; [exact Hr|].
      right. right. right. split; [reflexivity|].
      apply isRecentReturn_iff. split; [exact Hst|]. now exists s, t.
    + unfold returnNotification. simpl. now rewrite Hs.
Qed.

End AdminRules.

(** ** Identifiers are keys *)

Lemma append_inj_r (p x y : string) : (p ++ x)%string = (p ++ y)%string -> x = y.
Proof.
  induction p as [|c p IH]; simpl; [trivial|]. intros [= E]. now apply IH.
Qed.

Lemma NoDup_map_filter {A B : Type} (f : A -> B) (p : A -> bool)
    (l : list A) :
  NoDup (map f l) -> NoDup (map f (List.filter p l)).
Proof.
  induction l as [|a l IH]; simpl; [trivial|].
  intros Hnd. apply NoDup_cons_iff in Hnd. destruct Hnd as [Hnot Hnd].
  destruct (p a); simpl; [|now apply IH].
  constructor; [|now apply IH].
  intros Hin. apply Hnot. apply in_map_iff in Hin.
  destruct Hin as (x & <- & Hx). apply filter_In in Hx. apply in_map, Hx.
Qed.

Lemma NoDup_firstn {A : Type} (k : nat) (l : list A) :
  NoDup l -> NoDup (firstn k l).
Proof.
  intros Hnd. rewrite <- (firstn_skipn k l) in Hnd.
  now apply NoDup_app_remove_r in Hnd.
Qed.

Lemma NoDup_map_slice0 {A B : Type} (f : A -> B) (n : Z) (l : list A) :
  NoDup (map f l) -> NoDup (map f (JS.slice0 n l)).
Proof.
  destruct (slice0_prefix n l) as [k ->]. rewrite <- firstn_map.
  apply NoDup_firstn.
Qed.

Lemma NoDup_map_sort {A B : Type} (f : A -> B)
    (comparefn : A -> A -> JS.number) (l : list A) :
  NoDup (map f l) -> NoDup (map f (JS.sort comparefn l)).
Proof.
  apply Permutation_NoDup, Permutation_map, Permutation_sym, sort_perm.
Qed.

(** The items that records with pairwise distinct keys contribute have
    pairwise distinct names, when the items of one record do and a name tells
    the key of the record. *)
Lemma NoDup_flat_map_by_key {A B : Type} (key : A -> string) (g : B -> string)
    (f : A -> list B) (l : list A) :
  NoDup (map key l) ->
  (forall r, NoDup (map g (f r))) ->
  (forall r q x y, In x (f r) -> In y (f q) -> g x = g y -> key r = key q) ->
  NoDup (map g (flat_map f l)).
Proof.
  intros Hnd Hone Hkey. induction l as [|a l IH]; simpl; [constructor|].
  simpl in Hnd. apply NoDup_cons_iff in Hnd. destruct Hnd as [Hnot Hnd].
  rewrite map_app. apply NoDup_app; [apply Hone|now apply IH|].
  intros s Hs1 Hs2. apply Hnot.
  apply in_map_iff in Hs1. destruct Hs1 as (x & <- & Hx).
  apply in_map_iff in Hs2. destruct Hs2 as (y & Ey & Hy).
  apply in_flat_map in Hy. destruct Hy as (q & Hq & Hy).
  rewrite (Hkey a q x y Hx Hy (eq_sym Ey)). now apply in_map.
Qed.

Lemma map_id_markAsRead (i : string) (l : list Notification.t) :
  map Notification.id (markAsRead i l) = map Notification.id l.
Proof.
  unfold markAsRead. rewrite map_map. apply map_ext. intros n.
  now destruct (n.(Notification.id) =? i)%string.
Qed.

Section NotificationKeys.
Context `{DateApi}.

Lemma NoDup_admin_part (p : string) (mk : BorrowRequest.t -> Notification.t)
    (keep : BorrowRequest.t -> bool) (requests : list BorrowRequest.t) :
  (forall r, (mk r).(Notification.id) = (p ++ r.(BorrowRequest.id))%string) ->
  NoDup (map BorrowRequest.id requests) ->
  NoDup (map Notification.id (map mk (List.filter keep requests))).
Proof.
  intros Hmk Hnd. rewrite map_map.
  rewrite (map_ext _ (fun r => String.append p r.(BorrowRequest.id)) Hmk).
  rewrite <- (map_map BorrowRequest.id (String.append p)).
  apply NoDup_map_NoDup_ForallPairs.
  - intros x y _ _. apply append_inj_r.
  - now apply NoDup_map_filter.
Qed.

Lemma admin_part_prefix (p : string) (mk : BorrowRequest.t -> Notification.t)
    (l : list BorrowRequest.t) (s : string) :
  (forall r, (mk r).(Notification.id) = (p ++ r.(BorrowRequest.id))%string) ->
  In s (map Notification.id (map mk l)) -> exists x, s = (p ++ x)%string.
Proof.
  intros Hmk Hs. rewrite map_map in Hs. apply in_map_iff in Hs.
  destruct Hs as (r & <- & _). eexists. apply Hmk.
Qed.

Lemma NoDup_adminNotifications (now : Z) (requests : list BorrowRequest.t) :
  NoDup (map BorrowRequest.id requests) ->
  NoDup (map Notification.id (adminNotifications now requests)).
Proof.
  intros Hnd. unfold adminNotifications. rewrite !map_app.
  assert (Hp : forall r, (pendingNotification r).(Notification.id)
                         = ("pending_" ++ r.(BorrowRequest.id))%string)
    by reflexivity.
  assert (Ho : forall r, (overdueNotification r).(Notification.id)
                         = ("overdue_" ++ r.(BorrowRequest.id))%string)
    by reflexivity.
  assert (Hc : forall r, (checkoutNotification r).(Notification.id)
                         = ("checkout_" ++ r.(BorrowRequest.id))%string)
    by reflexivity.
  assert (Hr : forall r, (returnNotification r).(Notification.id)
                         = ("return_" ++ r.(BorrowRequest.id))%string)
    by reflexivity.
  repeat apply NoDup_app;
    try (eapply NoDup_admin_part; [eassumption|exact Hnd]).
  - intros s Hs1 Hs2.
    destruct (admin_part_prefix _ _ _ _ Hc Hs1) as (x & ->).
    destruct (admin_part_prefix _ _ _ _ Hr Hs2) as (y & E). discriminate E.
  - intros s Hs1 Hs2.
    destruct (admin_part_prefix _ _ _ _ Ho Hs1) as (x & ->).
    apply in_app_or in Hs2. destruct Hs2 as [Hs2|Hs2].
    + destruct (admin_part_prefix _ _ _ _ Hc Hs2) as (y & E). discriminate E.
    + destruct (admin_part_prefix _ _ _ _ Hr Hs2) as (y & E). discriminate E.
  - intros s Hs1 Hs2.
    destruct (admin_part_prefix _ _ _ _ Hp Hs1) as (x & ->).
    apply in_app_or in Hs2. destruct Hs2 as [Hs2|Hs2];
      [|apply in_app_or in Hs2; destruct Hs2 as [Hs2|Hs2]].
    + destruct (admin_part_prefix _ _ _ _ Ho Hs2) as (y & E). discriminate E.
    + destruct (admin_part_prefix _ _ _ _ Hc Hs2) as (y & E). discriminate E.
    + destruct (admin_part_prefix _ _ _ _ Hr Hs2) as (y & E). discriminate E.
Qed.

Lemma studentNotificationsOf_id (now : Z) (r : BorrowRequest.t)
    (n : Notification.t) :
  In n (studentNotificationsOf now r) ->
  n.(Notification.id) = ("approved_" ++ r.(BorrowRequest.id))%string
  \/ n.(Notification.id) = ("rejected_" ++ r.(BorrowRequest.id))%string
  \/ n.(Notification.id) = ("reminder_" ++ r.(BorrowRequest.id))%string.
Proof.
  intros Hn. apply studentNotificationsOf_In in Hn.
  destruct Hn as [(-> & _)|[(-> & _)|(-> & _)]]; auto.
Qed.

Lemma NoDup_studentNotificationsOf (now : Z) (r : BorrowRequest.t) :
  NoDup (map Notification.id (studentNotificationsOf now r)).
Proof.
  unfold studentNotificationsOf. cbv zeta.
  set (w := JS.le _ _ && JS.ge _ _).
  destruct r.(BorrowRequest.status),
    (JS.truthy r.(BorrowRequest.approvedDate)), w; simpl;
    repeat constructor; simpl; intuition discriminate.
Qed.

Lemma NoDup_studentNotifications (u : User.t) (now : Z)
    (requests : list BorrowRequest.t) :
  NoDup (map BorrowRequest.id requests) ->
  NoDup (map Notification.id (studentNotifications u now requests)).
Proof.
  intros Hnd. unfold studentNotifications.
  apply (NoDup_flat_map_by_key BorrowRequest.id).
  - now apply NoDup_map_filter.
  - apply NoDup_studentNotificationsOf.
  - intros r q x y Hx Hy E.
    apply studentNotificationsOf_id in Hx, Hy.
    destruct Hx as [Hx|[Hx|Hx]], Hy as [Hy|[Hy|Hy]];
      rewrite Hx, Hy in E;
      solve [discriminate E
            | exact (append_inj_r "approved_" _ _ E)
            | exact (append_inj_r "rejected_" _ _ E)
            | exact (append_inj_r "reminder_" _ _ E)].
Qed.

(** X11.  Requests with pairwise distinct identifiers yield notifications
    with pairwise distinct identifiers, for both roles, in the synthesis and in
    the list stored; the identifiers, the React keys of the rows, stay what
    they are under [markAsRead] and [markAllAsRead]. *)
Theorem notification_ids_distinct (u : User.t) (now : Z)
    (requests : list BorrowRequest.t) (prev : list Notification.t)
    (i : string) :
  NoDup (map BorrowRequest.id requests) ->
  let next := loadNotifications (Some u) now requests prev in
  NoDup (map Notification.id (userNotifications u now requests))
  /\ NoDup (map Notification.id next)
  /\ NoDup (map Notification.id (markAsRead i next))
  /\ NoDup (map Notification.id (markAllAsRead next)).
Proof.
  intros Hnd next.
  assert (Hsyn : NoDup (map Notification.id
                          (userNotifications u now requests))).
  { unfold userNotifications. destruct u.(User.role).
    - now apply NoDup_adminNotifications.
    - now apply NoDup_studentNotifications. }
  assert (Hnext : NoDup (map Notification.id next)).
  { unfold next. simpl. unfold deriveNotifications.
    now apply NoDup_map_slice0, NoDup_map_sort. }
  split; [exact Hsyn|]. split; [exact Hnext|]. split.
  - now rewrite map_id_markAsRead.
  - unfold markAllAsRead. rewrite map_map.
    now rewrite (map_ext _ Notification.id setRead_id).
Qed.

End NotificationKeys.

(** ** The order of the list survives the read-state operations *)

Lemma adjacent_map {A B : Type} (f : A -> B) (l : list A) (x y : B) :
  adjacent x y (map f l) ->
  exists a b, adjacent a b l /\ x = f a /\ y = f b.
Proof.
  intros (l1 & l2 & E). apply map_eq_app in E.
  destruct E as (m1 & m2 & -> & <- & E). apply map_eq_cons in E.
  destruct E as (a & m3 & -> & <- & E). apply map_eq_cons in E.
  destruct E as (b & m4 & -> & <- & <-).
  exists a, b. split; [now exists m1, m4|now split].
Qed.

Section OrderKept.
Context `{DateApi}.

Lemma inOrder_sameButRead (x y x' y' : Notification.t) :
  sameButRead x x' -> sameButRead y y' -> inOrder x y -> inOrder x' y'.
Proof.
  unfold sameButRead, inOrder, priorityRank.
  intros (_ & _ & _ & _ & Hxt & _ & Hxp) (_ & _ & _ & _ & Hyt & _ & Hyp).
  now rewrite Hxt, Hxp, Hyt, Hyp.
Qed.

(** X12.  A list of notifications that is in order (rank first, then newest
    first) is still in order after [markAsRead] and after [markAllAsRead]:
    a click never reorders the panel. *)
Theorem read_operations_keep_order (i : string) (l : list Notification.t) :
  Ordered l -> Ordered (markAsRead i l) /\ Ordered (markAllAsRead l).
Proof.
  intros Hord. unfold Ordered, markAsRead, markAllAsRead. split.
  - intros x y Hadj. apply adjacent_map in Hadj.
    destruct Hadj as (a & b & Hab & -> & ->).
    apply (inOrder_sameButRead a b); [| |now apply Hord].
    + destruct (a.(Notification.id) =? i)%string;
        [apply sameButRead_setRead|apply sameButRead_refl].
    + destruct (b.(Notification.id) =? i)%string;
        [apply sameButRead_setRead|apply sameButRead_refl].
  - intros x y Hadj. apply adjacent_map in Hadj.
    destruct Hadj as (a & b & Hab & -> & ->).
    apply (inOrder_sameButRead a b);
      [apply sameButRead_setRead|apply sameButRead_setRead|now apply Hord].
Qed.

End OrderKept.

(** ** [formatTimestamp] *)

Lemma div_lt_iff (d k q : Z) : 0 < k -> (d / k < q <-> d < q * k).
Proof.
  intros Hk. pose proof (Z.div_mod d k ltac:(lia)) as Hdm.
  pose proof (Z.mod_pos_bound d k Hk) as Hmod. split; nia.
Qed.

Section FormatTimestamp.
Context `{DateApi}.

(** X13.  The relative time of the notification panel, for a timestamp that is
    a date, by the age [now - t] in milliseconds: "Just now" below one minute
    (also for a timestamp in the future), whole minutes 1..59 below one hour,
    whole hours 1..23 below one day, whole days 1..6 below seven days, and the
    local date from seven days on. *)
Theorem panel_formatTimestamp_cases (now t : Z) (timestamp : string) :
  parseDate timestamp = Some t ->
  let age := now - t in
  (age < 60000 ->
   NotificationCenter.formatTimestamp now timestamp = "Just now"%string)
  /\ (60000 <= age < 3600000 ->
      NotificationCenter.formatTimestamp now timestamp
      = (JS.showZ (age / 60000) ++ "m ago")%string
      /\ 1 <= age / 60000 <= 59)
  /\ (3600000 <= age < 86400000 ->
      NotificationCenter.formatTimestamp now timestamp
      = (JS.showZ (age / 3600000) ++ "h ago")%string
      /\ 1 <= age / 3600000 <= 23)
  /\ (86400000 <= age < 604800000 ->
      NotificationCenter.formatTimestamp now timestamp
      = (JS.showZ (age / 86400000) ++ "d ago")%string
      /\ 1 <= age / 86400000 <= 6)
  /\ (604800000 <= age ->
      NotificationCenter.formatTimestamp now timestamp
      = toLocaleDateString (Some t)).
Proof.
  intros Ht age. unfold NotificationCenter.formatTimestamp. rewrite Ht.
  simpl. fold age.
  pose proof (div_lt_iff age 60000 1 ltac:(lia)) as Hm1.
  pose proof (div_lt_iff age 60000 60 ltac:(lia)) as Hm60.
  pose proof (div_lt_iff age 3600000 24 ltac:(lia)) as Hh24.
  pose proof (div_lt_iff age 86400000 7 ltac:(lia)) as Hd7.
  pose proof (div_lt_iff age 3600000 1 ltac:(lia)) as Hh1.
  pose proof (div_lt_iff age 86400000 1 ltac:(lia)) as Hd1.
  destruct (Z.ltb_spec (age / 60000) 1) as [M1|M1];
    destruct (Z.ltb_spec (age / 60000) 60) as [M60|M60];
    destruct (Z.ltb_spec (age / 3600000) 24) as [H24|H24];
    destruct (Z.ltb_spec (age / 86400000) 7) as [D7|D7];
    repeat split; intros; try reflexivity; try lia.
Qed.

(** X14.  The relative time of the activity feed: "Just now" below one hour
    (also for a timestamp in the future), whole hours 1..23 below one day,
    whole days 1..6 below seven days, the local date from seven days on.  It
    agrees with the one of the panel except for ages from one minute to one
    hour, which the panel gives in minutes and the feed as "Just now". *)
Theorem feed_formatTimestamp_cases (now t : Z) (timestamp : string) :
  parseDate timestamp = Some t ->
  let age := now - t in
  (age < 3600000 ->
   ActivityFeed.formatTimestamp now timestamp = "Just now"%string)
  /\ (3600000 <= age < 86400000 ->
      ActivityFeed.formatTimestamp now timestamp
      = (JS.showZ (age / 3600000) ++ "h ago")%string
      /\ 1 <= age / 3600000 <= 23)
  /\ (86400000 <= age < 604800000 ->
      ActivityFeed.formatTimestamp now timestamp
      = (JS.showZ (age / 86400000) ++ "d ago")%string
      /\ 1 <= age / 86400000 <= 6)
  /\ (604800000 <= age ->
      ActivityFeed.formatTimestamp now timestamp
      = toLocaleDateString (Some t))
  /\ (age < 60000 \/ 3600000 <= age ->
      ActivityFeed.formatTimestamp now timestamp
      = NotificationCenter.formatTimestamp now timestamp).
Proof.
  intros Ht age.
  unfold ActivityFeed.formatTimestamp, NotificationCenter.formatTimestamp.
  rewrite Ht. simpl. fold age.
  pose proof (div_lt_iff age 60000 1 ltac:(lia)) as Hm1.
  pose proof (div_lt_iff age 60000 60 ltac:(lia)) as Hm60.
  pose proof (div_lt_iff age 3600000 24 ltac:(lia)) as Hh24.
  pose proof (div_lt_iff age 86400000 7 ltac:(lia)) as Hd7.
  pose proof (div_lt_iff age 3600000 1 ltac:(lia)) as Hh1.
  pose proof (div_lt_iff age 86400000 1 ltac:(lia)) as Hd1.
  destruct (Z.ltb_spec (age / 60000) 1) as [M1|M1];
    destruct (Z.ltb_spec (age / 60000) 60) as [M60|M60];
    destruct (Z.ltb_spec (age / 3600000) 1) as [H1|H1];
    destruct (Z.ltb_spec (age / 3600000) 24) as [H24|H24];
    destruct (Z.ltb_spec (age / 86400000) 7) as [D7|D7];
    repeat split; intros; try reflexivity; try lia.
Qed.

(** X15.  For a timestamp that is not a date every comparison with [NaN]
    fails, and both formatters fall through to [toLocaleDateString] of the
    invalid date, whatever [now] is. *)
Theorem formatTimestamp_invalid_date (now : Z) (timestamp : string) :
  parseDate timestamp = None ->
  NotificationCenter.formatTimestamp now timestamp = toLocaleDateString None
  /\ ActivityFeed.formatTimestamp now timestamp = toLocaleDateString None.
Proof.
  intros Hnone.
  unfold ActivityFeed.formatTimestamp, NotificationCenter.formatTimestamp.
  now rewrite Hnone.
Qed.

End FormatTimestamp.

(** ** The activity feed: what a request contributes *)

Section ActivitySynthesis.
Context `{DateApi}.

(** X16.  The kinds of the items a request pushes, by its status: the
    submission alone for a pending request and for one whose status is
    overdue; submission, approval and checkout for an approved request with an
    approval date, the submission alone without one; submission and return for
    a returned request with a return date; submission and rejection for a
    rejected request.  So a request yields one to three items, the submission
    first, stamped with the request date. *)
Theorem items_by_status (r : BorrowRequest.t) :
  map ActivityItem.type (itemsOf r)
  = match r.(BorrowRequest.status) with
    | pending | overdue => [ActivityItem.request]
    | approved =>
        if JS.truthy r.(BorrowRequest.approvedDate)
        then [ActivityItem.request; ActivityItem.approval;
              ActivityItem.checkout]
        else [ActivityItem.request]
    | returned =>
        if JS.truthy r.(BorrowRequest.returnedDate)
        then [ActivityItem.request; ActivityItem.return_]
        else [ActivityItem.request]
    | rejected => [ActivityItem.request; ActivityItem.rejection]
    end
  /\ (1 <= List.length (itemsOf r) <= 3)%nat
  /\ (exists a rest,
        itemsOf r = a :: rest
        /\ a.(ActivityItem.type) = ActivityItem.request
        /\ a.(ActivityItem.timestamp) = r.(BorrowRequest.requestDate)
        /\ a.(ActivityItem.id) = ("request_" ++ r.(BorrowRequest.id))%string).
Proof.
  unfold itemsOf.
  destruct r.(BorrowRequest.status),
    (JS.truthy r.(BorrowRequest.approvedDate)),
    (JS.truthy r.(BorrowRequest.returnedDate)); simpl;
    (split; [reflexivity|]); (split; [lia|]);
    eexists; eexists; (split; [reflexivity|]); now repeat split.
Qed.

Lemma count_request_itemsOf (r : BorrowRequest.t) :
  count (matchesFilter Filter.requests) (itemsOf r) = 1%nat.
Proof.
  unfold itemsOf.
  destruct r.(BorrowRequest.status),
    (JS.truthy r.(BorrowRequest.approvedDate)),
    (JS.truthy r.(BorrowRequest.returnedDate)); reflexivity.
Qed.

Lemma length_itemsOf (r : BorrowRequest.t) :
  (1 <= List.length (itemsOf r) <= 3)%nat.
Proof.
  unfold itemsOf.
  destruct r.(BorrowRequest.status),
    (JS.truthy r.(BorrowRequest.approvedDate)),
    (JS.truthy r.(BorrowRequest.returnedDate)); simpl; lia.
Qed.

(** X17.  The feed before the cut has at least one item and at most three per
    request, and the filter [requests] keeps exactly one item per request: as
    many rows as there are requests, whatever their status. *)
Theorem feed_size (requests : list BorrowRequest.t) :
  (List.length requests <= List.length (sortedActivities requests)
   <= 3 * List.length requests)%nat
  /\ List.length (filteredActivities Filter.requests requests)
     = List.length requests.
Proof.
  split.
  - unfold sortedActivities. rewrite sort_length. unfold activityItems.
    induction requests as [|r l IH]; [simpl; lia|].
    cbn [flat_map List.length]. rewrite length_app.
    pose proof (length_itemsOf r). lia.
  - rewrite filteredActivities_filter. unfold sortedActivities.
    change (List.length (List.filter ?p ?l)) with (count p l).
    rewrite count_sort. unfold activityItems.
    induction requests as [|r l IH]; [reflexivity|].
    cbn [flat_map]. rewrite count_app, IH, (count_request_itemsOf r).
    reflexivity.
Qed.

Lemma itemsOf_prefix (q : BorrowRequest.t) (a : ActivityItem.t) :
  In a (itemsOf q) ->
  a.(ActivityItem.id)
  = (activityPrefix a.(ActivityItem.type) ++ q.(BorrowRequest.id))%string.
Proof. apply itemsOf_ids. Qed.

Lemma NoDup_itemsOf (r : BorrowRequest.t) :
  NoDup (map ActivityItem.id (itemsOf r)).
Proof.
  unfold itemsOf.
  destruct r.(BorrowRequest.status),
    (JS.truthy r.(BorrowRequest.approvedDate)),
    (JS.truthy r.(BorrowRequest.returnedDate)); simpl;
    repeat constructor; simpl; intuition discriminate.
Qed.

Lemma activity_id_tells_request (k k' : ActivityItem.kind) (x y : string) :
  (activityPrefix k ++ x)%string = (activityPrefix k' ++ y)%string -> x = y.
Proof.
  destruct k, k'; simpl; intros E; try discriminate E;
    injection E as E; exact E.
Qed.

(** X18.  Requests with pairwise distinct identifiers yield activity items
    with pairwise distinct identifiers, in the synthesis and in the list
    stored, for every filter and every [maxItems]: the React keys of the rows
    do not clash. *)
Theorem activity_ids_distinct (f : Filter.t) (maxItems : Z)
    (requests : list BorrowRequest.t) :
  NoDup (map BorrowRequest.id requests) ->
  NoDup (map ActivityItem.id (activityItems requests))
  /\ NoDup (map ActivityItem.id (deriveActivities f maxItems requests)).
Proof.
  intros Hnd.
  assert (Hsyn : NoDup (map ActivityItem.id (activityItems requests))).
  { unfold activityItems. apply (NoDup_flat_map_by_key BorrowRequest.id).
    - exact Hnd.
    - apply NoDup_itemsOf.
    - intros r q x y Hx Hy E.
      rewrite (itemsOf_prefix r x Hx), (itemsOf_prefix q y Hy) in E.
      now apply activity_id_tells_request in E. }
  split; [exact Hsyn|].
  unfold deriveActivities. apply NoDup_map_slice0.
  rewrite filteredActivities_filter. apply NoDup_map_filter.
  unfold sortedActivities. now apply NoDup_map_sort.
Qed.

End ActivitySynthesis.

(** ** The activity feed: order and filters *)

Lemma precedes_firstn {A : Type} (x y : A) (n : nat) (l : list A) :
  precedes x y (firstn n l) -> precedes x y l.
Proof.
  intros (l1 & l2 & l3 & E). exists l1, l2, (l3 ++ skipn n l).
  rewrite <- (firstn_skipn n l) at 1. rewrite E.
  now rewrite <- !app_assoc, <- !app_comm_cons, <- !app_assoc.
Qed.

Lemma StronglySorted_precedes {A : Type} (R : A -> A -> Prop) (l : list A)
    (x y : A) :
  StronglySorted R l -> precedes x y l -> R x y.
Proof.
  intros Hs (l1 & l2 & l3 & ->). induction l1 as [|a l1 IH]; simpl in Hs.
  - apply StronglySorted_inv in Hs. destruct Hs as [_ Hall].
    rewrite Forall_forall in Hall. apply Hall.
    apply in_or_app. right. now left.
  - apply StronglySorted_inv in Hs. now apply IH.
Qed.

Lemma StronglySorted_filter {A : Type} (R : A -> A -> Prop) (p : A -> bool)
    (l : list A) :
  StronglySorted R l -> StronglySorted R (List.filter p l).
Proof.
  induction 1 as [|a l Hs IH Hall]; simpl; [constructor|].
  destruct (p a); [|exact IH]. constructor; [exact IH|].
  rewrite Forall_forall in *. intros x Hx. apply Hall.
  now apply filter_In in Hx.
Qed.

Section ActivityOrder.
Context `{DateApi}.

Lemma notOlder_trans (x y z : ActivityItem.t) :
  notOlder x y -> notOlder y z -> notOlder x z.
Proof.
  unfold notOlder, JS.ge.
  destruct (activityTime x), (activityTime y), (activityTime z);
    try discriminate. rewrite !Z.leb_le. lia.
Qed.

Lemma compareActivities_keep (x y : ActivityItem.t) :
  validActivity x -> validActivity y ->
  JS.sortCompare compareActivities x y <= 0 -> notOlder x y.
Proof.
  unfold validActivity, notOlder, activityTime, JS.sortCompare,
    compareActivities.
  destruct (parseDate x.(ActivityItem.timestamp)); [|now intros E; elim E].
  destruct (parseDate y.(ActivityItem.timestamp)); [|now intros _ E; elim E].
  simpl. intros _ _ Hle. apply Z.leb_le. lia.
Qed.

Lemma compareActivities_swap (x y : ActivityItem.t) :
  validActivity x -> validActivity y ->
  0 < JS.sortCompare compareActivities x y -> notOlder y x.
Proof.
  unfold validActivity, notOlder, activityTime, JS.sortCompare,
    compareActivities.
  destruct (parseDate x.(ActivityItem.timestamp)); [|now intros E; elim E].
  destruct (parseDate y.(ActivityItem.timestamp)); [|now intros _ E; elim E].
  simpl. intros _ _ Hlt. apply Z.leb_le. lia.
Qed.

Lemma sortedActivities_StronglySorted (requests : list BorrowRequest.t) :
  Forall validActivity (activityItems requests) ->
  StronglySorted notOlder (sortedActivities requests).
Proof.
  intros Hvalid. apply Sorted_StronglySorted.
  - intros x y z. apply notOlder_trans.
  - apply (sort_Sorted compareActivities validActivity notOlder).
    + apply compareActivities_keep.
    + apply compareActivities_swap.
    + exact Hvalid.
Qed.

(** X19.  When the timestamps of the synthesised items are dates, the list
    [loadActivities] stores is ordered newest first for every filter and every
    [maxItems]: an item that stands anywhere before another one, next to it or
    not, has a timestamp that is not older. *)
Theorem activities_newest_first (f : Filter.t) (maxItems : Z)
    (requests : list BorrowRequest.t) (x y : ActivityItem.t) :
  Forall validActivity (activityItems requests) ->
  precedes x y (deriveActivities f maxItems requests) ->
  JS.ge (parseDate x.(ActivityItem.timestamp))
        (parseDate y.(ActivityItem.timestamp)) = true.
Proof.
  intros Hvalid Hprec. unfold deriveActivities in Hprec.
  destruct (slice0_prefix maxItems (filteredActivities f requests)) as [k E].
  rewrite E in Hprec. apply precedes_firstn in Hprec.
  rewrite filteredActivities_filter in Hprec.
  apply (StronglySorted_precedes notOlder _ x y) in Hprec; [exact Hprec|].
  apply StronglySorted_filter. now apply sortedActivities_StronglySorted.
Qed.

(** X20.  Rejection items are shown under the filter [all] only: none of the
    filters [requests], [approvals] and [returns] lets one through, so a
    rejected request appears there with its submission alone, or not at
    all. *)
Theorem rejections_only_under_all (f : Filter.t) (maxItems : Z)
    (requests : list BorrowRequest.t) (a : ActivityItem.t) :
  f <> Filter.all ->
  In a (deriveActivities f maxItems requests) ->
  a.(ActivityItem.type) <> ActivityItem.rejection.
Proof.
  intros Hf Ha Hk. apply deriveActivities_In in Ha. destruct Ha as [_ Hm].
  unfold matchesFilter in Hm. rewrite Hk in Hm.
  destruct f; try discriminate Hm. now elim Hf.
Qed.

(** X21.  The badge and the tag of a row.  Every item of the feed carries a
    status the badge knows: a submission shows "Pending Review", whatever has
    become of the request since, an approval or a checkout "Approved", a
    return "Returned", a rejection "Rejected"; no row shows "Overdue" or
    "Unknown".  Only approval items carry the "Priority" tag. *)
Theorem row_badge_and_tag (requests : list BorrowRequest.t)
    (a : ActivityItem.t) :
  In a (activityItems requests) ->
  (rowBadge a).(StatusBadge.label)
  = match a.(ActivityItem.type) with
    | ActivityItem.request => "Pending Review"%string
    | ActivityItem.approval | ActivityItem.checkout => "Approved"%string
    | ActivityItem.return_ => "Returned"%string
    | ActivityItem.rejection => "Rejected"%string
    end
  /\ (rowBadge a).(StatusBadge.label) <> "Overdue"%string
  /\ (rowBadge a).(StatusBadge.label) <> "Unknown"%string
  /\ (hasPriorityTag a = true
      <-> a.(ActivityItem.type) = ActivityItem.approval).
Proof.
  unfold activityItems. rewrite in_flat_map. intros (r & _ & Ha).
  unfold itemsOf in Ha. rewrite !in_app_iff in Ha.
  split_ifs_in Ha; simpl in Ha;
    repeat match type of Ha with
           | _ \/ _ => destruct Ha as [Ha|Ha]
           | False => destruct Ha
           end; subst a; cbn; repeat split; congruence.
Qed.

(** X22.  No request, nothing to show: with an empty request list the feed is
    empty for every filter and every [maxItems], negative ones included, and a
    tick leaves a current user with an empty notification list and no
    badge. *)
Theorem empty_requests (f : Filter.t) (maxItems : Z) (st : ActivityFeed.State)
    (u : User.t) (now : Z) (prev : list Notification.t) :
  (loadActivities f maxItems [] st).(activities) = []
  /\ loadNotifications (Some u) now [] prev = []
  /\ bellBadge (unreadCount (loadNotifications (Some u) now [] prev)) = None.
Proof.
  assert (Hn : loadNotifications (Some u) now [] prev = []).
  { simpl. unfold deriveNotifications, userNotifications.
    now destruct u.(User.role). }
  rewrite Hn. split; [|now split].
  simpl. unfold deriveActivities.
  destruct (slice0_prefix maxItems (filteredActivities f [])) as [k ->].
  rewrite filteredActivities_filter. simpl. apply firstn_nil.
Qed.

End ActivityOrder.

(** ** StatusBadge *)

(** X23.  The badge of a status: the five statuses have five different
    labels, and the label is "Unknown" exactly for a string that is none of
    the five status names. *)
Theorem status_labels (status : string) (a b : Status) :
  ((StatusBadge.getStatusConfig status).(StatusBadge.label)
   = "Unknown"%string
   <-> forall st, status <> StatusBadge.statusName st)
  /\ ((StatusBadge.getStatusConfig
         (StatusBadge.statusName a)).(StatusBadge.label)
      = (StatusBadge.getStatusConfig
           (StatusBadge.statusName b)).(StatusBadge.label)
      -> a = b).
Proof.
  split.
  - unfold StatusBadge.getStatusConfig. split.
    + intros Hl st Hs.
      destruct st; subst status; simpl in Hl; discriminate Hl.
    + intros Hno.
      destruct (String.eqb_spec status "pending") as [E|_];
        [now elim (Hno pending)|].
      destruct (String.eqb_spec status "approved") as [E|_];
        [now elim (Hno approved)|].
      destruct (String.eqb_spec status "returned") as [E|_];
        [now elim (Hno returned)|].
      destruct (String.eqb_spec status "rejected") as [E|_];
        [now elim (Hno rejected)|].
      destruct (String.eqb_spec status "overdue") as [E|_];
        [now elim (Hno overdue)|].
      reflexivity.
  - destruct a, b; simpl; intros E; try reflexivity; discriminate E.
Qed.

(** ** What a row looks like *)

(** X24.  The look of a notification row.  The three priorities have three
    different colours, none of them the gray of the [default] branch, and the
    colour is the red one exactly when the row carries the "Urgent" tag.  The
    icon is never the bell of the [default] branch; two kinds have the same
    icon element exactly when they are equal or are return and approval, which
    a row does not tell apart by its icon. *)
Theorem notification_row_look (n : Notification.t) (a b : Notification.kind)
    (p q : Priority) :
  (getPriorityColor (priorityName n.(Notification.priority))
   = "border-l-red-500 bg-red-900/20"%string
   <-> hasUrgentTag n = true)
  /\ (getPriorityColor (priorityName p) = getPriorityColor (priorityName q)
      -> p = q)
  /\ getPriorityColor (priorityName p)
     <> "border-l-gray-500 bg-gray-900/20"%string
  /\ fst (getNotificationIcon (NotificationCenter.kindName a)) <> Lucide.Bell
  /\ (getNotificationIcon (NotificationCenter.kindName a)
      = getNotificationIcon (NotificationCenter.kindName b)
      <-> a = b
          \/ (a = Notification.return_ /\ b = Notification.approval)
          \/ (a = Notification.approval /\ b = Notification.return_)).
Proof.
  split; [|split; [|split; [|split]]].
  - unfold hasUrgentTag. destruct n.(Notification.priority); simpl;
      split; intros E; first [reflexivity|discriminate E].
  - destruct p, q; simpl; intros E; try reflexivity; discriminate E.
  - destruct p; simpl; discriminate.
  - destruct a; simpl; discriminate.
  - destruct a, b; simpl;
      (split; intros E;
       [ first [ discriminate E
               | left; reflexivity
               | right; left; split; reflexivity
               | right; right; split; reflexivity ]
       | first [ reflexivity
               | destruct E as [E|[[E1 E2]|[E1 E2]]]; discriminate ] ]).
Qed.

(** X25.  The look of a feed row and of a badge.  The five kinds of activity
    have five different icon elements, none of them the [default] one.  A
    badge size other than [sm] and [lg] is rendered as [md]. *)
Theorem feed_row_look (a b : ActivityItem.kind) (size : string) :
  (getActivityIcon (ActivityFeed.kindName a)
   = getActivityIcon (ActivityFeed.kindName b) -> a = b)
  /\ fst (getActivityIcon (ActivityFeed.kindName a)) <> Lucide.Activity
  /\ (size <> "sm"%string -> size <> "lg"%string ->
      StatusBadge.getSizeClasses size = StatusBadge.getSizeClasses "md").
Proof.
  split; [|split].
  - destruct a, b; simpl; intros E; try reflexivity; discriminate E.
  - destruct a; simpl; discriminate.
  - intros Hsm Hlg. unfold StatusBadge.getSizeClasses.
    apply String.eqb_neq in Hsm, Hlg. now rewrite Hsm, Hlg.
Qed.

(** ** The two roles on the same request *)

Section TwoRoles.
Context `{DateApi}.

(** X26.  An approved request whose due date lies less than 24 hours before
    [now] is told differently to the two roles at the same instant: the
    administrator gets the reminder "Overdue Component", the student who owns
    the request gets the reminder that the component "is due today", of
    priority high. *)
Theorem overdue_for_admin_due_today_for_student (u : User.t) (now due : Z)
    (requests : list BorrowRequest.t) (r : BorrowRequest.t) :
  In r requests ->
  r.(BorrowRequest.status) = approved ->
  r.(BorrowRequest.studentId) = u.(User.id) ->
  dateOf r.(BorrowRequest.dueDate) = Some due ->
  now - msPerDay < due < now ->
  In (overdueNotification r) (adminNotifications now requests)
  /\ (overdueNotification r).(Notification.title)
     = "Overdue Component"%string
  /\ In (reminderNotification now r) (studentNotifications u now requests)
  /\ (reminderNotification now r).(Notification.message)
     = (r.(BorrowRequest.componentName) ++ " is due today")%string
  /\ (reminderNotification now r).(Notification.priority) = high.
Proof.
  intros Hr Hst Hown Hdue Hwin.
  destruct (daysDiff_window now due _ Hdue) as [Hw Hz].
  assert (Hzero : JS.eqk (daysDiff now r.(BorrowRequest.dueDate)) 0 = true)
    by (apply Hz; lia).
  split; [|split; [reflexivity|split; [|split]]].
  - apply adminNotifications_In. exists r. split; [exact Hr|].
    right. left. split; [reflexivity|].
    apply (isOverdue_iff now r Hst). exists due. split; [exact Hdue|lia].
  - unfold studentNotifications. apply in_flat_map. exists r. split.
    + apply filter_In. split; [exact Hr|]. now apply String.eqb_eq.
    + apply studentNotificationsOf_In. right. right.
      split; [reflexivity|]. split; [exact Hst|]. apply Hw. lia.
  - unfold reminderNotification. simpl. now rewrite Hzero.
  - unfold reminderNotification. simpl. now rewrite Hzero.
Qed.

End TwoRoles.

(** ** Instances of the further properties on the sample requests *)

Lemma click_lowers_unread_by_one_witness :
  NoDup (map Notification.id
           [pendingNotification r1;
            overdueNotification (approvedRequest "r3" "2024-01-01")])
  /\ (unreadCount
        (markAsRead "pending_r1"
           [pendingNotification r1;
            overdueNotification (approvedRequest "r3" "2024-01-01")]) + 1)%nat
     = unreadCount
         [pendingNotification r1;
          overdueNotification (approvedRequest "r3" "2024-01-01")].
Proof.
  assert (Hnd : NoDup (map Notification.id
                  [pendingNotification r1;
                   overdueNotification (approvedRequest "r3" "2024-01-01")])).
  { repeat constructor; simpl; intuition discriminate. }
  split; [exact Hnd|].
  exact (proj1 (click_lowers_unread_by_one "pending_r1" _
                  (pendingNotification r1) Hnd (or_introl eq_refl) eq_refl)
           eq_refl).
Defined.

Lemma student_reminder_window_witness :
  (r1Approved "2024-01-06").(BorrowRequest.status) = approved
  /\ dateOf (r1Approved "2024-01-06").(BorrowRequest.dueDate)
     = Some 1704499200000
  /\ now - msPerDay < 1704499200000 <= now + 2 * msPerDay
  /\ In (reminderNotification now (r1Approved "2024-01-06"))
        (studentNotificationsOf now (r1Approved "2024-01-06")).
Proof.
  assert (Hdue : dateOf (r1Approved "2024-01-06").(BorrowRequest.dueDate)
                 = Some 1704499200000) by (vm_compute; reflexivity).
  assert (Hwin : now - msPerDay < 1704499200000 <= now + 2 * msPerDay)
    by (unfold now, msPerDay; lia).
  repeat split; try exact Hdue; try apply Hwin.
  exact (proj2 (proj1 (student_reminder_window now 1704499200000
                         (r1Approved "2024-01-06") eq_refl Hdue)) Hwin).
Defined.

Lemma student_reminder_needs_due_date_witness :
  dateOf (r1Approved "soon").(BorrowRequest.dueDate) = None
  /\ In (approvedNotification (r1Approved "soon"))
        (studentNotificationsOf now (r1Approved "soon"))
  /\ (approvedNotification (r1Approved "soon")).(Notification.type)
     <> Notification.reminder.
Proof.
  assert (Hnone : dateOf (r1Approved "soon").(BorrowRequest.dueDate) = None)
    by (vm_compute; reflexivity).
  assert (Hin : In (approvedNotification (r1Approved "soon"))
                   (studentNotificationsOf now (r1Approved "soon")))
    by (left; reflexivity).
  split; [exact Hnone|]. split; [exact Hin|].
  exact (student_reminder_needs_due_date now (r1Approved "soon") _
           (or_introl Hnone) Hin).
Defined.

Lemma student_sees_own_requests_witness :
  In (rejectedNotification r2) (studentNotifications alice now [r1; r2])
  /\ exists r,
       In r [r1; r2]
       /\ r.(BorrowRequest.studentId) = alice.(User.id)
       /\ (rejectedNotification r2).(Notification.requestId)
          = Some r.(BorrowRequest.id).
Proof.
  assert (Hin : In (rejectedNotification r2)
                   (studentNotifications alice now [r1; r2]))
    by (left; reflexivity).
  split; [exact Hin|].
  destruct (student_sees_own_requests alice now [r1; r2] _ Hin)
    as (r & Hr & Hown & Hid & _).
  exists r. now repeat split.
Defined.

Lemma admin_notification_origin_witness :
  In (pendingNotification r1) (adminNotifications now [r1; r2])
  /\ exists r,
       In r [r1; r2]
       /\ (pendingNotification r1).(Notification.requestId)
          = Some r.(BorrowRequest.id)
       /\ r.(BorrowRequest.status) <> rejected.
Proof.
  assert (Hin : In (pendingNotification r1) (adminNotifications now [r1; r2]))
    by (left; reflexivity).
  split; [exact Hin|].
  destruct (admin_notification_origin now [r1; r2] _ Hin)
    as (r & Hr & Hid & Hrej & _).
  exists r. now repeat split.
Defined.

Lemma admin_rules_complete_witness :
  In r1 [r1; r2]
  /\ r1.(BorrowRequest.status) = pending
  /\ In (pendingNotification r1) (adminNotifications now [r1; r2]).
Proof.
  assert (Hin : In r1 [r1; r2]) by (left; reflexivity).
  split; [exact Hin|]. split; [reflexivity|].
  exact (proj1 (admin_rules_complete now [r1; r2] r1 "" 0 Hin) eq_refl).
Defined.

Lemma notification_ids_distinct_witness :
  NoDup (map BorrowRequest.id [r1; r2])
  /\ NoDup (map Notification.id
              (loadNotifications (Some alice) now [r1; r2] [])).
Proof.
  assert (Hnd : NoDup (map BorrowRequest.id [r1; r2])).
  { repeat constructor; simpl; intuition discriminate. }
  split; [exact Hnd|].
  exact (proj1 (proj2 (notification_ids_distinct alice now [r1; r2] []
                         "rejected_r2" Hnd))).
Defined.

Lemma read_operations_keep_order_witness :
  Ordered [pendingNotification r1;
           overdueNotification (approvedRequest "r3" "2024-01-01")]
  /\ Ordered (markAllAsRead
                [pendingNotification r1;
                 overdueNotification (approvedRequest "r3" "2024-01-01")]).
Proof.
  assert (Hord : Ordered
                   [pendingNotification r1;
                    overdueNotification (approvedRequest "r3" "2024-01-01")]).
  { intros x y (l1 & l2 & E).
    destruct l1 as [|c [|d l1]]; simpl in E.
    - injection E as <- <- _. right. split; vm_compute; reflexivity.
    - injection E as _ _ E. discriminate E.
    - injection E as _ _ E. destruct l1; discriminate E. }
  split; [exact Hord|].
  exact (proj2 (read_operations_keep_order "pending_r1" _ Hord)).
Defined.

Lemma panel_formatTimestamp_cases_witness :
  parseDate "2024-01-05T09:00:00Z" = Some 1704445200000
  /\ 3600000 <= now - 1704445200000 < 86400000
  /\ NotificationCenter.formatTimestamp now "2024-01-05T09:00:00Z"
     = "1h ago"%string.
Proof.
  assert (Ht : parseDate "2024-01-05T09:00:00Z" = Some 1704445200000)
    by (vm_compute; reflexivity).
  assert (Hage : 3600000 <= now - 1704445200000 < 86400000)
    by (unfold now; lia).
  split; [exact Ht|]. split; [exact Hage|].
  exact (proj1 (proj1 (proj2 (proj2 (panel_formatTimestamp_cases now
                                       1704445200000 _ Ht))) Hage)).
Defined.

Lemma feed_formatTimestamp_cases_witness :
  parseDate "2024-01-05T09:40:00Z" = Some 1704447600000
  /\ now - 1704447600000 < 3600000
  /\ ActivityFeed.formatTimestamp now "2024-01-05T09:40:00Z"
     = "Just now"%string.
Proof.
  assert (Ht : parseDate "2024-01-05T09:40:00Z" = Some 1704447600000)
    by (vm_compute; reflexivity).
  assert (Hage : now - 1704447600000 < 3600000) by (unfold now; lia).
  split; [exact Ht|]. split; [exact Hage|].
  exact (proj1 (feed_formatTimestamp_cases now 1704447600000 _ Ht) Hage).
Defined.

Lemma formatTimestamp_invalid_date_witness :
  parseDate "unknown" = None
  /\ NotificationCenter.formatTimestamp now "unknown"
     = "Invalid Date"%string.
Proof.
  assert (Hnone : parseDate "unknown" = None) by (vm_compute; reflexivity).
  split; [exact Hnone|].
  exact (proj1 (formatTimestamp_invalid_date now "unknown" Hnone)).
Defined.

Lemma activity_ids_distinct_witness :
  NoDup (map BorrowRequest.id [r1Approved "2024-01-09"; r2])
  /\ NoDup (map ActivityItem.id
              (deriveActivities Filter.all 10
                 [r1Approved "2024-01-09"; r2])).
Proof.
  assert (Hnd : NoDup (map BorrowRequest.id [r1Approved "2024-01-09"; r2])).
  { repeat constructor; simpl; intuition discriminate. }
  split; [exact Hnd|].
  exact (proj2 (activity_ids_distinct Filter.all 10 _ Hnd)).
Defined.

Lemma activities_newest_first_witness :
  Forall validActivity (activityItems [r1Approved "2024-01-09"])
  /\ precedes
       (nth 0 (deriveActivities Filter.all 10 [r1Approved "2024-01-09"])
          submission1)
       submission1
       (deriveActivities Filter.all 10 [r1Approved "2024-01-09"])
  /\ JS.ge (parseDate "2024-01-02T09:00:00Z")
           (parseDate "2024-01-01T10:00:00Z") = true.
Proof.
  assert (Hvalid : Forall validActivity
                     (activityItems [r1Approved "2024-01-09"])).
  { repeat constructor; unfold validActivity; vm_compute; discriminate. }
  assert (Hprec : precedes
            (nth 0 (deriveActivities Filter.all 10 [r1Approved "2024-01-09"])
               submission1)
            submission1
            (deriveActivities Filter.all 10 [r1Approved "2024-01-09"])).
  { exists [],
      [nth 1 (deriveActivities Filter.all 10 [r1Approved "2024-01-09"])
         submission1], [].
    reflexivity. }
  split; [exact Hvalid|]. split; [exact Hprec|].
  exact (activities_newest_first Filter.all 10 _ _ _ Hvalid Hprec).
Defined.

Lemma rejections_only_under_all_witness :
  Filter.requests <> Filter.all
  /\ In submission1 (deriveActivities Filter.requests 10 [r1; r2])
  /\ submission1.(ActivityItem.type) <> ActivityItem.rejection.
Proof.
  assert (Hf : Filter.requests <> Filter.all) by discriminate.
  assert (Hin : In submission1
                   (deriveActivities Filter.requests 10 [r1; r2]))
    by (right; left; reflexivity).
  split; [exact Hf|]. split; [exact Hin|].
  exact (rejections_only_under_all Filter.requests 10 [r1; r2] _ Hf Hin).
Defined.

Lemma row_badge_and_tag_witness :
  In submission1 (activityItems [r1])
  /\ (rowBadge submission1).(StatusBadge.label) <> "Unknown"%string.
Proof.
  assert (Hin : In submission1 (activityItems [r1])) by (left; reflexivity).
  split; [exact Hin|].
  exact (proj1 (proj2 (proj2 (row_badge_and_tag [r1] _ Hin)))).
Defined.

Lemma status_labels_witness :
  (forall st, "lost"%string <> StatusBadge.statusName st)
  /\ (StatusBadge.getStatusConfig "lost").(StatusBadge.label)
     = "Unknown"%string.
Proof.
  assert (Hno : forall st, "lost"%string <> StatusBadge.statusName st).
  { intros st. destruct st; discriminate. }
  split; [exact Hno|].
  exact (proj2 (proj1 (status_labels "lost" pending pending)) Hno).
Defined.

Lemma notification_row_look_witness :
  hasUrgentTag (pendingNotification r1) = true
  /\ getPriorityColor
       (priorityName (pendingNotification r1).(Notification.priority))
     = "border-l-red-500 bg-red-900/20"%string.
Proof.
  split; [reflexivity|].
  exact (proj2 (proj1 (notification_row_look (pendingNotification r1)
                         Notification.approval Notification.approval
                         high high)) eq_refl).
Defined.

Lemma feed_row_look_witness :
  "xl"%string <> "sm"%string /\ "xl"%string <> "lg"%string
  /\ StatusBadge.getSizeClasses "xl" = StatusBadge.getSizeClasses "md".
Proof.
  assert (Hsm : "xl"%string <> "sm"%string) by discriminate.
  assert (Hlg : "xl"%string <> "lg"%string) by discriminate.
  split; [exact Hsm|]. split; [exact Hlg|].
  exact (proj2 (proj2 (feed_row_look ActivityItem.request
                         ActivityItem.request "xl")) Hsm Hlg).
Defined.

Lemma overdue_for_admin_due_today_for_student_witness :
  dateOf (r1Approved "2024-01-05T10:06:59.999Z").(BorrowRequest.dueDate)
  = Some 1704449219999
  /\ now - msPerDay < 1704449219999 < now
  /\ In (overdueNotification (r1Approved "2024-01-05T10:06:59.999Z"))
        (adminNotifications now [r1Approved "2024-01-05T10:06:59.999Z"])
  /\ (reminderNotification now
        (r1Approved "2024-01-05T10:06:59.999Z")).(Notification.message)
     = "Oscilloscope is due today"%string.
Proof.
  assert (Hdue : dateOf
            (r1Approved "2024-01-05T10:06:59.999Z").(BorrowRequest.dueDate)
            = Some 1704449219999) by (vm_compute; reflexivity).
  assert (Hwin : now - msPerDay < 1704449219999 < now)
    by (unfold now, msPerDay; lia).
  destruct (overdue_for_admin_due_today_for_student alice now 1704449219999
              [r1Approved "2024-01-05T10:06:59.999Z"]
              (r1Approved "2024-01-05T10:06:59.999Z")
              (or_introl eq_refl) eq_refl eq_refl Hdue Hwin)
    as (Hadmin & _ & _ & Hmsg & _).
  split; [exact Hdue|]. split; [exact Hwin|]. split; [exact Hadmin|].
  exact Hmsg.
Defined.
